(** * homebridge-airgradient: the AirQualitySensor accessory of src/index.ts

  A shallow embedding of the class [AirQualitySensor]:
  - [transformAirQuality], the rank computed from PM2.5, PM10 and CO2;
  - the accessory's fields and the characteristic values it writes into the
    HomeKit services;
  - [pollAirGradient], [updateCharacteristics], [updateInfo] and the five
    [handle...Get] accessors, in a small state-and-exception monad;
  - [discoverDevice] with the Bonjour browser, the one-shot timeout and the
    repeating poll timers, as handlers of an event loop.

  A JavaScript [number] is an IEEE 754 binary64 value: it is modelled by
  Rocq's primitive [float], so the literals 55.4 and 35.4 denote the same
  doubles as in the source and [>] is the IEEE comparison (false on NaN).
  The rank, which only ever holds 1..5, is a [Z].

  [axios.get] rejects or resolves; when it resolves, [response.data] is the
  decoded reading or, for a body that is not JSON, the text as it came,
  every field of which reads as [undefined]. *)

From Stdlib Require Import ZArith List String Bool Lia Floats DecimalString.
Import ListNotations.

Set Warnings "-inexact-float".

(* ================================================================== *)
(** ** JavaScript numbers *)

Module JSNumber.

Definition number := float.

(** [x > y] of JavaScript on numbers. *)
Definition gt (x y : number) : bool := PrimFloat.ltb y x.

(** [x <= y] of JavaScript on numbers. *)
Definition le (x y : number) : bool := PrimFloat.leb x y.

(** [x === y] of JavaScript on numbers. *)
Definition strict_eq (x y : number) : bool := PrimFloat.eqb x y.

Arguments gt (x y)%_float_scope.
Arguments le (x y)%_float_scope.
Arguments strict_eq (x y)%_float_scope.

End JSNumber.

Notation "x >? y" := (JSNumber.gt x y) (at level 70, no associativity) : float_scope.

(* ================================================================== *)
(** ** The classifier: [transformAirQuality] *)

Module Classifier.
Import JSNumber.

Local Open Scope Z_scope.

(** src/index.ts, lines 166-201.  The three [if]-chains run in the order
    of the source; a [return 5] leaves the function at once. *)
Definition transformAirQuality (pm2_5 pm10 co2 : number) : Z :=
  let rank := 1 in
  (* Rank for PM2.5 *)
  if (pm2_5 >? 100)%float then 5 else
  let rank :=
    if (pm2_5 >? 55.4)%float then Z.max rank 4
    else if (pm2_5 >? 35.4)%float then Z.max rank 3
    else if (pm2_5 >? 12)%float then Z.max rank 2
    else rank in
  (* Rank for PM10 *)
  if (pm10 >? 354)%float then 5 else
  let rank :=
    if (pm10 >? 254)%float then Z.max rank 4
    else if (pm10 >? 154)%float then Z.max rank 3
    else if (pm10 >? 54)%float then Z.max rank 2
    else rank in
  (* Rank for CO2 *)
  if (co2 >? 2000)%float then 5 else
  let rank :=
    if (co2 >? 1000)%float then Z.max rank 3
    else if (co2 >? 500)%float then Z.max rank 2
    else rank in
  rank.

(** *** The classification as the specification words it

    One rank per scale from the breakpoint table, the maximum of the
    three, and 5 as soon as one input exceeds its top breakpoint. *)

Definition rank_pm25 (pm25 : number) : Z :=
  if (pm25 >? 55.4)%float then 4
  else if (pm25 >? 35.4)%float then 3
  else if (pm25 >? 12)%float then 2
  else 1.

Definition rank_pm10 (pm10 : number) : Z :=
  if (pm10 >? 254)%float then 4
  else if (pm10 >? 154)%float then 3
  else if (pm10 >? 54)%float then 2
  else 1.

Definition rank_co2 (co2 : number) : Z :=
  if (co2 >? 1000)%float then 3
  else if (co2 >? 500)%float then 2
  else 1.

Definition exceeds_top (pm25 pm10 co2 : number) : bool :=
  (pm25 >? 100)%float || (pm10 >? 354)%float || (co2 >? 2000)%float.

Definition classify_spec (pm25 pm10 co2 : number) : Z :=
  if exceeds_top pm25 pm10 co2 then 5
  else Z.max (rank_pm25 pm25) (Z.max (rank_pm10 pm10) (rank_co2 co2)).

Arguments transformAirQuality (pm2_5 pm10 co2)%_float_scope.
Arguments rank_pm25 pm25%_float_scope.
Arguments rank_pm10 pm10%_float_scope.
Arguments rank_co2 co2%_float_scope.
Arguments classify_spec (pm25 pm10 co2)%_float_scope.

End Classifier.

(* ================================================================== *)
(** ** The accessory: data, services and fields *)

Module Accessory.
Import JSNumber.

Local Open Scope string_scope.

Definition Nullable (A : Type) : Type := option A.

(** [interface AirGradientData], src/index.ts lines 8-26. *)
Module AirGradientData.
Record t : Type := {
  boot : number;
  wifi : number;
  serialno : string;
  rco2 : number;
  pm01 : number;
  pm02 : number;
  pm10 : number;
  pm003Count : number;
  atmp : number;
  rhum : number;
  tvocIndex : number;
  tvoc_raw : number;
  noxIndex : number;
  nox_raw : number;
  ledMode : string;
  firmwareVersion : string;
  fwMode : string
}.
End AirGradientData.

(** The fields of [AccessoryConfig] the accessory reads. *)
Module AccessoryConfig.
Record t : Type := {
  name : string;
  serialNumber : string;
  pollDelay : number
}.
End AccessoryConfig.

(** A service advertisement as the Bonjour browser hands it to the
    ['up'] listener. *)
Module BonjourService.
Record t : Type := {
  name : string;
  host : string;
  port : N
}.
End BonjourService.

(** [response.data]. axios decodes a JSON body; a body that is not JSON it
    hands on as the text it received, and the promise resolves all the
    same. *)
Inductive ResponseData : Type :=
| Decoded (data : AirGradientData.t)
| Undecoded (body : string).

Coercion Decoded : AirGradientData.t >-> ResponseData.

(** [data.f] for a field [f] of [AirGradientData]: the field of a decoded
    reading, [undefined] on a body that is text. *)
Definition field {A : Type} (f : AirGradientData.t -> A) (data : ResponseData) : option A :=
  match data with
  | Decoded d => Some (f d)
  | Undecoded _ => None
  end.

(** [x === y] for [x] a number or [undefined] and [y] a number. *)
Definition strict_eq_number (x : option number) (y : number) : bool :=
  match x with
  | Some n => strict_eq n y
  | None => false
  end.

(** The number a comparison makes of its operand: [undefined] becomes NaN. *)
Arguments strict_eq_number x y%_float_scope.

Definition to_number (x : option number) : number :=
  match x with
  | Some n => n
  | None => PrimFloat.nan
  end.

(** The HomeKit characteristics the accessory touches. *)
Inductive Characteristic : Type :=
| Manufacturer
| SerialNumber
| FirmwareRevision
| Model
| AirQuality
| PM2_5Density
| PM10Density
| CarbonDioxideLevel
| CurrentTemperature.

Definition Characteristic_eqb (c1 c2 : Characteristic) : bool :=
  match c1, c2 with
  | Manufacturer, Manufacturer
  | SerialNumber, SerialNumber
  | FirmwareRevision, FirmwareRevision
  | Model, Model
  | AirQuality, AirQuality
  | PM2_5Density, PM2_5Density
  | PM10Density, PM10Density
  | CarbonDioxideLevel, CarbonDioxideLevel
  | CurrentTemperature, CurrentTemperature => true
  | _, _ => false
  end.

(** What the accessory hands to [updateValue] and [setCharacteristic]: the
    rank is an integer, the measurements are numbers, the device
    information is text, and a field the response does not have is
    [undefined]. *)
Inductive CharacteristicValue : Type :=
| IntValue (z : Z)
| NumberValue (x : number)
| StringValue (s : string)
| UndefinedValue.

(** A HomeKit service: its characteristics, each with its current value. *)
Definition Service : Type := list (Characteristic * Nullable CharacteristicValue).

(** [service.getCharacteristic(c).value]; a characteristic the service
    does not hold reads as [null]. *)
Fixpoint value (c : Characteristic) (svc : Service) : Nullable CharacteristicValue :=
  match svc with
  | [] => None
  | (c', v) :: rest => if Characteristic_eqb c c' then v else value c rest
  end.

(** [service.getCharacteristic(c).updateValue(v)]: the characteristic's value
    is replaced; [getCharacteristic] adds the characteristic when the service
    does not hold it yet. *)
Fixpoint updateValue (c : Characteristic) (v : CharacteristicValue) (svc : Service) : Service :=
  match svc with
  | [] => [(c, Some v)]
  | (c', v') :: rest =>
      if Characteristic_eqb c c' then (c', Some v) :: rest
      else (c', v') :: updateValue c v rest
  end.

(** [service.addCharacteristic(c)] and the characteristic a first
    [service.getCharacteristic(c)] adds: the value is the framework's initial
    one. *)
Fixpoint addCharacteristic (initial : Characteristic -> Nullable CharacteristicValue)
  (c : Characteristic) (svc : Service) : Service :=
  match svc with
  | [] => [(c, initial c)]
  | (c', v') :: rest =>
      if Characteristic_eqb c c' then svc
      else (c', v') :: addCharacteristic initial c rest
  end.

(** The fields of [class AirQualitySensor], src/index.ts lines 28-41. *)
Record AirQualitySensor : Type := {
  infoService : Service;
  airQualityService : Service;
  temperatureService : Service;
  name : string;
  deviceUrl : option string;
  firmwareVersion : option string;
  isConnected : bool;
  config : AccessoryConfig.t
}.

Definition with_infoService (s : Service) (a : AirQualitySensor) : AirQualitySensor :=
  {| infoService := s;
     airQualityService := airQualityService a;
     temperatureService := temperatureService a;
     name := name a;
     deviceUrl := deviceUrl a;
     firmwareVersion := firmwareVersion a;
     isConnected := isConnected a;
     config := config a |}.

Definition with_airQualityService (s : Service) (a : AirQualitySensor) : AirQualitySensor :=
  {| infoService := infoService a;
     airQualityService := s;
     temperatureService := temperatureService a;
     name := name a;
     deviceUrl := deviceUrl a;
     firmwareVersion := firmwareVersion a;
     isConnected := isConnected a;
     config := config a |}.

Definition with_temperatureService (s : Service) (a : AirQualitySensor) : AirQualitySensor :=
  {| infoService := infoService a;
     airQualityService := airQualityService a;
     temperatureService := s;
     name := name a;
     deviceUrl := deviceUrl a;
     firmwareVersion := firmwareVersion a;
     isConnected := isConnected a;
     config := config a |}.

Definition with_deviceUrl (u : option string) (a : AirQualitySensor) : AirQualitySensor :=
  {| infoService := infoService a;
     airQualityService := airQualityService a;
     temperatureService := temperatureService a;
     name := name a;
     deviceUrl := u;
     firmwareVersion := firmwareVersion a;
     isConnected := isConnected a;
     config := config a |}.

Definition with_firmwareVersion (f : option string) (a : AirQualitySensor) : AirQualitySensor :=
  {| infoService := infoService a;
     airQualityService := airQualityService a;
     temperatureService := temperatureService a;
     name := name a;
     deviceUrl := deviceUrl a;
     firmwareVersion := f;
     isConnected := isConnected a;
     config := config a |}.

Definition with_isConnected (b : bool) (a : AirQualitySensor) : AirQualitySensor :=
  {| infoService := infoService a;
     airQualityService := airQualityService a;
     temperatureService := temperatureService a;
     name := name a;
     deviceUrl := deviceUrl a;
     firmwareVersion := firmwareVersion a;
     isConnected := b;
     config := config a |}.

(* ------------------------------------------------------------------ *)
(** *** What the accessory does to its surroundings *)

Inductive LogLevel : Type := DEBUG | INFO | ERROR.

Inductive LogParameter : Type :=
| Text (s : string)
| Json (data : ResponseData).

(** One call of [this.log.debug], [this.log.info] or [this.log.error]. *)
Record LogEntry : Type := {
  level : LogLevel;
  message : string;
  parameters : list LogParameter
}.

(** The accessory together with what it has written, asked for and
    scheduled: the log, the URLs requested with [axios.get], whether the
    Bonjour ['up'] listener is registered, whether the [setTimeout] of
    [discoverDevice] has still to fire, and the delays of the [setInterval]
    timers that are running. *)
Record World : Type := {
  this : AirQualitySensor;
  log : list LogEntry;
  requests : list string;
  browserListening : bool;
  timeoutPending : bool;
  intervals : list number
}.

Definition with_this (a : AirQualitySensor) (w : World) : World :=
  {| this := a; log := log w; requests := requests w;
     browserListening := browserListening w;
     timeoutPending := timeoutPending w; intervals := intervals w |}.

Definition with_log (l : list LogEntry) (w : World) : World :=
  {| this := this w; log := l; requests := requests w;
     browserListening := browserListening w;
     timeoutPending := timeoutPending w; intervals := intervals w |}.

Definition with_requests (r : list string) (w : World) : World :=
  {| this := this w; log := log w; requests := r;
     browserListening := browserListening w;
     timeoutPending := timeoutPending w; intervals := intervals w |}.

Definition with_browserListening (b : bool) (w : World) : World :=
  {| this := this w; log := log w; requests := requests w;
     browserListening := b;
     timeoutPending := timeoutPending w; intervals := intervals w |}.

Definition with_timeoutPending (b : bool) (w : World) : World :=
  {| this := this w; log := log w; requests := requests w;
     browserListening := browserListening w;
     timeoutPending := b; intervals := intervals w |}.

Definition with_intervals (i : list number) (w : World) : World :=
  {| this := this w; log := log w; requests := requests w;
     browserListening := browserListening w;
     timeoutPending := timeoutPending w; intervals := i |}.

(* ------------------------------------------------------------------ *)
(** *** Exceptions and the monad of the methods *)

(** How [axios.get] rejects: the request did not get through (no
    connection, a timeout), or the device answered with a status outside
    2xx. *)
Inductive FetchError : Type :=
| TransportError
| BadStatus (status : N).

Inductive HAPStatus : Type :=
| SUCCESS
| INSUFFICIENT_PRIVILEGES
| SERVICE_COMMUNICATION_FAILURE
| RESOURCE_BUSY.

Inductive Exception : Type :=
| AxiosError (e : FetchError)
| HapStatusError (status : HAPStatus).

(** What [await axios.get(url)] comes back with. *)
Inductive AxiosOutcome : Type :=
| Rejected (e : FetchError)
| Resolved (data : ResponseData).

Inductive Completion (A : Type) : Type :=
| Normal (a : A)
| Throw (e : Exception).

Arguments Normal {A} a.
Arguments Throw {A} e.

(** A method: it returns or throws, and what it wrote before throwing stays
    written. *)
Definition M (A : Type) : Type := World -> Completion A * World.

Definition ret {A : Type} (a : A) : M A := fun w => (Normal a, w).

Definition bind {A B : Type} (m : M A) (k : A -> M B) : M B :=
  fun w =>
    match m w with
    | (Normal a, w') => k a w'
    | (Throw e, w') => (Throw e, w')
    end.

Definition throw {A : Type} (e : Exception) : M A := fun w => (Throw e, w).

(** [try { body } catch (error) { handler }]. *)
Definition try_catch {A : Type} (body : M A) (handler : Exception -> M A) : M A :=
  fun w =>
    match body w with
    | (Normal a, w') => (Normal a, w')
    | (Throw e, w') => handler e w'
    end.

Definition get_this : M AirQualitySensor := fun w => (Normal (this w), w).

Definition modify_this (f : AirQualitySensor -> AirQualitySensor) : M unit :=
  fun w => (Normal tt, with_this (f (this w)) w).

Definition modify_world (f : World -> World) : M unit :=
  fun w => (Normal tt, f w).

Declare Scope method_scope.
Delimit Scope method_scope with method.

Notation "x <- m ;; k" := (bind m (fun x => k))
  (at level 61, m at next level, right associativity) : method_scope.
Notation "m ;; k" := (bind m (fun _ => k))
  (at level 61, right associativity) : method_scope.

Local Open Scope method_scope.

Definition logWith (l : LogLevel) (msg : string) (ps : list LogParameter) : M unit :=
  modify_world (fun w =>
    with_log (log w ++ [{| level := l; message := msg; parameters := ps |}]) w).

Definition log_debug := logWith DEBUG.
Definition log_info := logWith INFO.
Definition log_error := logWith ERROR.

(** [await axios.get(url)]: the request is sent, and the outcome is the
    device's and the network's to decide. *)
Definition axios_get (url : string) (outcome : AxiosOutcome) : M ResponseData :=
  modify_world (fun w => with_requests (requests w ++ [url]) w) ;;
  match outcome with
  | Resolved data => ret data
  | Rejected e => throw (AxiosError e)
  end.

(** A template literal's rendering of [this.deviceUrl]. *)
Definition show_url (u : option string) : string :=
  match u with
  | Some s => s
  | None => "undefined"
  end.

(** [data.firmwareVersion !== this.firmwareVersion], each side a string or
    [undefined]. *)
Definition strict_neq (x field : option string) : bool :=
  match x, field with
  | Some s, Some s' => negb (String.eqb s s')
  | None, None => false
  | _, _ => true
  end.

(** [data.f as CharacteristicValue]. *)
Definition numberValue (x : option number) : CharacteristicValue :=
  match x with
  | Some n => NumberValue n
  | None => UndefinedValue
  end.

Definition stringValue (x : option string) : CharacteristicValue :=
  match x with
  | Some s => StringValue s
  | None => UndefinedValue
  end.

(** [haystack.includes(needle)]. *)
Definition includes (haystack needle : string) : bool :=
  match String.index 0 needle haystack with
  | Some _ => true
  | None => false
  end.

(** A template literal's rendering of [service.port]. *)
Definition show_port (p : N) : string :=
  DecimalString.NilEmpty.string_of_uint (N.to_uint p).

(* ------------------------------------------------------------------ *)
(** *** The methods *)

(** src/index.ts, lines 91-97. *)
Definition updateInfo (data : ResponseData) : M unit :=
  modify_this (with_firmwareVersion (field AirGradientData.firmwareVersion data)) ;;
  modify_this (fun a =>
    with_infoService
      (updateValue FirmwareRevision
         (stringValue (field AirGradientData.firmwareVersion data)) (infoService a)) a) ;;
  modify_this (fun a =>
    with_infoService
      (updateValue Model (stringValue (field AirGradientData.fwMode data))
         (infoService a)) a).

Definition airQualityService_updateValue (c : Characteristic) (v : CharacteristicValue) : M unit :=
  modify_this (fun a => with_airQualityService (updateValue c v (airQualityService a)) a).

Definition temperatureService_updateValue (c : Characteristic) (v : CharacteristicValue) : M unit :=
  modify_this (fun a => with_temperatureService (updateValue c v (temperatureService a)) a).

(** src/index.ts, lines 99-139.  [data] is [response.data] as it came; the
    comparisons of [transformAirQuality] turn an [undefined] argument into
    NaN. *)
Definition updateCharacteristics (data : ResponseData) : M unit :=
  log_debug "Updating with new data: " [Json data] ;;
  if strict_eq_number (field AirGradientData.boot data) 0%float then
    log_debug "Device still booting..." []
  else
    a <- get_this ;;
    (if strict_neq (field AirGradientData.firmwareVersion data) (firmwareVersion a)
     then updateInfo data else ret tt) ;;
    (* Update Air Quality *)
    let airQuality :=
      Classifier.transformAirQuality (to_number (field AirGradientData.pm02 data))
        (to_number (field AirGradientData.pm10 data))
        (to_number (field AirGradientData.rco2 data)) in
    airQualityService_updateValue AirQuality (IntValue airQuality) ;;
    (* Update PM2.5 Density *)
    let pm25Density := numberValue (field AirGradientData.pm02 data) in
    airQualityService_updateValue PM2_5Density pm25Density ;;
    (* Update PM10 Density *)
    let pm10Density := numberValue (field AirGradientData.pm10 data) in
    airQualityService_updateValue PM10Density pm10Density ;;
    (* Update CO2 Level *)
    let co2Level := numberValue (field AirGradientData.rco2 data) in
    airQualityService_updateValue CarbonDioxideLevel co2Level ;;
    (* Update Temperature *)
    let temperature := numberValue (field AirGradientData.atmp data) in
    temperatureService_updateValue CurrentTemperature temperature.

(** src/index.ts, lines 80-89.  [response] is what the [await] of
    [axios.get] comes back with; the poll is taken as one step of the event
    loop, from the request to the end of the [try] or of the [catch]. *)
Definition pollAirGradient (response : AxiosOutcome) : M unit :=
  log_debug "Polling data from AirGradient" [] ;;
  try_catch
    (a <- get_this ;;
     data <- axios_get (show_url (deviceUrl a) ++ "/measures/current") response ;;
     updateCharacteristics data ;;
     modify_this (with_isConnected true))
    (fun error => modify_this (with_isConnected false)).

Definition Handler : Type := M (Nullable CharacteristicValue).

(** src/index.ts, lines 158-164. *)
Definition handleAirQualityGet : Handler :=
  a <- get_this ;;
  if isConnected a then ret (value AirQuality (airQualityService a))
  else throw (HapStatusError SERVICE_COMMUNICATION_FAILURE).

(** src/index.ts, lines 203-209. *)
Definition handleCarbonDioxideLevelGet : Handler :=
  a <- get_this ;;
  if isConnected a then ret (value CarbonDioxideLevel (airQualityService a))
  else throw (HapStatusError SERVICE_COMMUNICATION_FAILURE).

(** src/index.ts, lines 211-217. *)
Definition handlePM25Get : Handler :=
  a <- get_this ;;
  if isConnected a then ret (value PM2_5Density (airQualityService a))
  else throw (HapStatusError SERVICE_COMMUNICATION_FAILURE).

(** src/index.ts, lines 219-225. *)
Definition handlePM10Get : Handler :=
  a <- get_this ;;
  if isConnected a then ret (value PM10Density (airQualityService a))
  else throw (HapStatusError SERVICE_COMMUNICATION_FAILURE).

(** src/index.ts, lines 227-233. *)
Definition handleTemperatureGet : Handler :=
  a <- get_this ;;
  if isConnected a then ret (value CurrentTemperature (temperatureService a))
  else throw (HapStatusError SERVICE_COMMUNICATION_FAILURE).

(** The [onGet] handlers that [addHandlers] registers, src/index.ts lines
    141-156, in the order of the source. *)
Definition onGetHandlers : list (Characteristic * Handler) :=
  [ (AirQuality, handleAirQualityGet);
    (CarbonDioxideLevel, handleCarbonDioxideLevelGet);
    (PM2_5Density, handlePM25Get);
    (PM10Density, handlePM10Get);
    (CurrentTemperature, handleTemperatureGet) ].

(** The handler HomeKit calls when it reads characteristic [c]. *)
Fixpoint onGet_in (table : list (Characteristic * Handler)) (c : Characteristic) : option Handler :=
  match table with
  | [] => None
  | (c', h) :: rest => if Characteristic_eqb c c' then Some h else onGet_in rest c
  end.

Definition onGet : Characteristic -> option Handler := onGet_in onGetHandlers.

(** The store a measurement is kept in: the characteristic's value in the
    service that holds it. *)
Definition stored (c : Characteristic) (a : AirQualitySensor) : Nullable CharacteristicValue :=
  match c with
  | Manufacturer | SerialNumber | FirmwareRevision | Model => value c (infoService a)
  | AirQuality | PM2_5Density | PM10Density | CarbonDioxideLevel =>
      value c (airQualityService a)
  | CurrentTemperature => value c (temperatureService a)
  end.

(** [addHandlers]' effect on the services: each [getCharacteristic] makes
    sure the service holds the characteristic. *)
Definition addHandlers (initial : Characteristic -> Nullable CharacteristicValue) : M unit :=
  modify_this (fun a =>
    with_airQualityService (addCharacteristic initial AirQuality (airQualityService a)) a) ;;
  modify_this (fun a =>
    with_airQualityService
      (addCharacteristic initial CarbonDioxideLevel (airQualityService a)) a) ;;
  modify_this (fun a =>
    with_airQualityService (addCharacteristic initial PM2_5Density (airQualityService a)) a) ;;
  modify_this (fun a =>
    with_airQualityService (addCharacteristic initial PM10Density (airQualityService a)) a) ;;
  modify_this (fun a =>
    with_temperatureService
      (addCharacteristic initial CurrentTemperature (temperatureService a)) a).

(* ------------------------------------------------------------------ *)
(** *** Discovery and the event loop *)

(** The template literal of line 66: the address an advertisement gives. *)
Definition serviceUrl (service : BonjourService.t) : string :=
  "http://" ++ BonjourService.host service ++ ":"
  ++ show_port (BonjourService.port service).

(** The body of the ['up'] listener, src/index.ts lines 64-71.  [response]
    is the outcome of the poll the listener starts. *)
Definition onUp (service : BonjourService.t) (response : AxiosOutcome) : M unit :=
  a <- get_this ;;
  if includes (BonjourService.name service)
       ("airgradient_" ++ AccessoryConfig.serialNumber (config a))
  then
    let url := serviceUrl service in
    modify_this (with_deviceUrl (Some url)) ;;
    log_info ("Device found at " ++ url) [] ;;
    pollAirGradient response ;;
    modify_world (fun w =>
      with_intervals (intervals w ++ [AccessoryConfig.pollDelay (config a)]) w)
  else ret tt.

(** The body of the [setTimeout] callback, src/index.ts lines 73-77. *)
Definition onTimeout : M unit :=
  a <- get_this ;;
  match deviceUrl a with
  | None => log_error "No device found: " [Text (AccessoryConfig.serialNumber (config a))]
  | Some _ => ret tt
  end.

(** src/index.ts, lines 61-78: the listener is registered and the timeout
    is armed. *)
Definition discoverDevice : M unit :=
  log_debug "Starting device discovery using Bonjour" [] ;;
  modify_world (with_browserListening true) ;;
  modify_world (with_timeoutPending true).

(** The constructor, src/index.ts lines 37-59.  [MANUFACTURER] comes from
    ./settings and [initial] gives the value a characteristic has when the
    framework creates it. *)
Definition new_AirQualitySensor (MANUFACTURER : string)
  (initial : Characteristic -> Nullable CharacteristicValue)
  (cfg : AccessoryConfig.t) : Completion unit * World :=
  let infoService0 : Service :=
    [ (Manufacturer, initial Manufacturer); (SerialNumber, initial SerialNumber);
      (FirmwareRevision, initial FirmwareRevision); (Model, initial Model) ] in
  let infoService1 := updateValue Manufacturer (StringValue MANUFACTURER) infoService0 in
  let infoService2 :=
    updateValue SerialNumber (StringValue (AccessoryConfig.serialNumber cfg)) infoService1 in
  let airQualityService0 : Service := [ (AirQuality, initial AirQuality) ] in
  let airQualityService1 := addCharacteristic initial PM2_5Density airQualityService0 in
  let airQualityService2 := addCharacteristic initial CarbonDioxideLevel airQualityService1 in
  let temperatureService0 : Service := [ (CurrentTemperature, initial CurrentTemperature) ] in
  let a :=
    {| infoService := infoService2;
       airQualityService := airQualityService2;
       temperatureService := temperatureService0;
       name := AccessoryConfig.name cfg;
       deviceUrl := None;
       firmwareVersion := None;
       isConnected := false;
       config := cfg |} in
  (addHandlers initial ;; discoverDevice)
    {| this := a; log := []; requests := []; browserListening := false;
       timeoutPending := false; intervals := [] |}.

(** What the event loop delivers to the accessory: an advertisement from
    the Bonjour browser, the expiry of the timeout, a tick of a poll timer.
    An advertisement and a tick carry the outcome of the poll they start. *)
Inductive Event : Type :=
| Up (service : BonjourService.t) (response : AxiosOutcome)
| TimeoutFired
| IntervalFired (response : AxiosOutcome).

(** One turn of the event loop.  An advertisement reaches the listener only
    once it is registered, the timeout fires once and is then spent, and a
    tick needs a running timer. *)
Definition dispatch (e : Event) : M unit :=
  fun w =>
    match e with
    | Up service response =>
        if browserListening w then onUp service response w else (Normal tt, w)
    | TimeoutFired =>
        if timeoutPending w then onTimeout (with_timeoutPending false w)
        else (Normal tt, w)
    | IntervalFired response =>
        match intervals w with
        | [] => (Normal tt, w)
        | _ :: _ => pollAirGradient response w
        end
    end.

(** The events of a run, one after the other; an exception that escapes a
    callback ends the run. *)
Fixpoint run (events : list Event) : M unit :=
  match events with
  | [] => ret tt
  | e :: rest => dispatch e ;; run rest
  end.

Definition exec {A : Type} (m : M A) (w : World) : World := snd (m w).

(** The two states of the monitor, read off the accessory: it is looking
    for the device until [deviceUrl] is set, and polling once a poll timer
    runs against the address found. *)
Definition Discovering (w : World) : Prop :=
  deviceUrl (this w) = None /\ intervals w = [].

Definition Connected_Polling (w : World) : Prop :=
  deviceUrl (this w) <> None /\ intervals w <> [].

(** Whether the ['up'] listener takes an advertisement for the device. *)
Definition matches (cfg : AccessoryConfig.t) (e : Event) : bool :=
  match e with
  | Up service _ =>
      includes (BonjourService.name service)
        ("airgradient_" ++ AccessoryConfig.serialNumber cfg)
  | _ => false
  end.

Definition is_level (l : LogLevel) (e : LogEntry) : bool :=
  match l, level e with
  | DEBUG, DEBUG | INFO, INFO | ERROR, ERROR => true
  | _, _ => false
  end.

(** Entries written with [this.log.debug] only. *)
Definition only_debug (l : list LogEntry) : Prop :=
  Forall (fun e => level e = DEBUG) l.

(** How often "No device found" was reported: the entries written with
    [this.log.error], which the source calls for nothing else. *)
Definition notFoundReports (w : World) : nat :=
  List.length (List.filter (is_level ERROR) (log w)).

(** How often an address was resolved: the entries written with
    [this.log.info], which the source calls for "Device found at ..." only. *)
Definition resolutions (w : World) : nat :=
  List.length (List.filter (is_level INFO) (log w)).

(** How many poll loops are running. *)
Definition pollLoops (w : World) : nat := List.length (intervals w).

(** Whether the listener acts on an event: it is registered and the event
    is an advertisement for the device. *)
Definition taken (w : World) (e : Event) : bool :=
  browserListening w && matches (config (this w)) e.

(** How many advertisements for the device a run holds. *)
Definition matchingAdvertisements (cfg : AccessoryConfig.t) (events : list Event) : nat :=
  List.length (List.filter (matches cfg) events).

(** The address of the last advertisement for the device in a run, [url]
    when there is none. *)
Fixpoint lastAdvertised (cfg : AccessoryConfig.t) (events : list Event)
  (url : option string) : option string :=
  match events with
  | [] => url
  | Up service response :: rest =>
      if matches cfg (Up service response)
      then lastAdvertised cfg rest (Some (serviceUrl service))
      else lastAdvertised cfg rest url
  | _ :: rest => lastAdvertised cfg rest url
  end.

(* ------------------------------------------------------------------ *)
(** *** The services handed to Homebridge, and reading a run of events *)

(** src/index.ts, lines 235-237. *)
Definition getServices (a : AirQualitySensor) : list Service :=
  [infoService a; airQualityService a; temperatureService a].

(** Whether [axios.get] came back with a response. *)
Definition resolved (response : AxiosOutcome) : bool :=
  match response with
  | Resolved _ => true
  | Rejected _ => false
  end.

Definition isTimeoutFired (e : Event) : bool :=
  match e with
  | TimeoutFired => true
  | _ => false
  end.

(** The path [pollAirGradient] asks for. *)
Definition measuresPath : string := "/measures/current".

(** The addresses the advertisements for the device in a run give. *)
Fixpoint advertised (cfg : AccessoryConfig.t) (events : list Event) : list string :=
  match events with
  | [] => []
  | Up service response :: rest =>
      if matches cfg (Up service response)
      then serviceUrl service :: advertised cfg rest
      else advertised cfg rest
  | _ :: rest => advertised cfg rest
  end.

(** The outcomes of the polls a run of events starts, [found] telling
    whether a poll timer runs already: an advertisement for the device
    starts a poll, and a tick starts one once a timer runs. *)
Fixpoint pollsOf (cfg : AccessoryConfig.t) (found : bool) (events : list Event)
  : list AxiosOutcome :=
  match events with
  | [] => []
  | Up service response :: rest =>
      if matches cfg (Up service response)
      then response :: pollsOf cfg true rest
      else pollsOf cfg found rest
  | TimeoutFired :: rest => pollsOf cfg found rest
  | IntervalFired response :: rest =>
      if found then response :: pollsOf cfg found rest else pollsOf cfg found rest
  end.

(** Whether a poll timer runs. *)
Definition timerRuns (w : World) : bool :=
  match intervals w with
  | [] => false
  | _ :: _ => true
  end.

(** Whether the last of some polls succeeded, [b] when there was none. *)
Definition lastSucceeded (polls : list AxiosOutcome) (b : bool) : bool :=
  fold_left (fun _ response => resolved response) polls b.

End Accessory.

(* ================================================================== *)
(** ** A concrete accessory, readings and advertisements *)

Module Example.
Import Accessory.

Local Open Scope string_scope.
Local Open Scope float_scope.

Definition exampleConfig : AccessoryConfig.t :=
  {| AccessoryConfig.name := "Office";
     AccessoryConfig.serialNumber := "84fce612f5b8";
     AccessoryConfig.pollDelay := 10000 |}.

(** Values for freshly created characteristics: zero for the numeric ones,
    the empty text for the others. *)
Definition hapInitial (c : Characteristic) : Nullable CharacteristicValue :=
  match c with
  | Manufacturer | SerialNumber | FirmwareRevision | Model => Some (StringValue "")
  | AirQuality => Some (IntValue 0)
  | PM2_5Density | PM10Density | CarbonDioxideLevel | CurrentTemperature =>
      Some (NumberValue 0)
  end.

(** The accessory right after its constructor has run. *)
Definition started : World :=
  snd (new_AirQualitySensor "AirGradient" hapInitial exampleConfig).

Definition runningReading : AirGradientData.t :=
  {| AirGradientData.boot := 12;
     AirGradientData.wifi := -52;
     AirGradientData.serialno := "84fce612f5b8";
     AirGradientData.rco2 := 600;
     AirGradientData.pm01 := 40;
     AirGradientData.pm02 := 56;
     AirGradientData.pm10 := 160;
     AirGradientData.pm003Count := 1024;
     AirGradientData.atmp := 21.5;
     AirGradientData.rhum := 40;
     AirGradientData.tvocIndex := 100;
     AirGradientData.tvoc_raw := 31000;
     AirGradientData.noxIndex := 1;
     AirGradientData.nox_raw := 16000;
     AirGradientData.ledMode := "co2";
     AirGradientData.firmwareVersion := "3.1.1";
     AirGradientData.fwMode := "I-9PSL" |}.

(** The same device, seconds after power-up. *)
Definition bootingReading : AirGradientData.t :=
  {| AirGradientData.boot := 0;
     AirGradientData.wifi := -52;
     AirGradientData.serialno := "84fce612f5b8";
     AirGradientData.rco2 := 0;
     AirGradientData.pm01 := 0;
     AirGradientData.pm02 := 0;
     AirGradientData.pm10 := 0;
     AirGradientData.pm003Count := 0;
     AirGradientData.atmp := 0;
     AirGradientData.rhum := 0;
     AirGradientData.tvocIndex := 0;
     AirGradientData.tvoc_raw := 0;
     AirGradientData.noxIndex := 0;
     AirGradientData.nox_raw := 0;
     AirGradientData.ledMode := "co2";
     AirGradientData.firmwareVersion := "3.1.1";
     AirGradientData.fwMode := "I-9PSL" |}.

Definition advertisement : BonjourService.t :=
  {| BonjourService.name := "airgradient_84fce612f5b8";
     BonjourService.host := "192.168.1.20";
     BonjourService.port := 80 |}.

(** The device advertised again, from another address. *)
Definition readvertisement : BonjourService.t :=
  {| BonjourService.name := "airgradient_84fce612f5b8";
     BonjourService.host := "192.168.1.77";
     BonjourService.port := 80 |}.

(** Somebody else's device. *)
Definition strangerAdvertisement : BonjourService.t :=
  {| BonjourService.name := "airgradient_aabbccddeeff";
     BonjourService.host := "192.168.1.30";
     BonjourService.port := 80 |}.


End Example.

(* ================================================================== *)
(** ** Order facts on binary64 values *)

Section FloatOrder.

Lemma SFcompare_finite_pos (m1 m2 : positive) (e1 e2 : Z) :
  SFcompare (S754_finite false m1 e1) (S754_finite false m2 e2)
  = Some (match Z.compare e1 e2 with
          | Lt => Lt | Gt => Gt | Eq => Pos.compare m1 m2 end).
Proof. reflexivity. Qed.

Lemma SFcompare_finite_neg (m1 m2 : positive) (e1 e2 : Z) :
  SFcompare (S754_finite true m1 e1) (S754_finite true m2 e2)
  = Some (match Z.compare e1 e2 with
          | Lt => Gt | Gt => Lt | Eq => CompOpp (Pos.compare m1 m2) end).
Proof. reflexivity. Qed.

(** [t < a] and [a <= b] give [t < b], on the specification floats. *)
Lemma SFltb_leb_trans (t a b : spec_float) :
  SFltb t a = true -> SFleb a b = true -> SFltb t b = true.
Proof.
  unfold SFltb, SFleb.
  destruct t as [st| st | |st mt et], a as [sa|sa| |sa ma ea],
           b as [sb|sb| |sb mb eb];
    try (destruct st); try (destruct sa); try (destruct sb);
    try (cbn; congruence);
    rewrite ?SFcompare_finite_pos, ?SFcompare_finite_neg;
    destruct (Z.compare_spec et ea), (Z.compare_spec ea eb),
             (Z.compare_spec et eb);
    try (intros; congruence); try lia; subst;
    destruct (Pos.compare_spec mt ma), (Pos.compare_spec ma mb),
             (Pos.compare_spec mt mb);
    cbn; try (intros; congruence); try lia; subst; lia.
Qed.

(** The same on primitive floats: a threshold passed by [x] is passed by
    every [x'] with [x <= x']. *)
Lemma gt_le_trans (t x x' : float) :
  JSNumber.le x x' = true -> JSNumber.gt x t = true -> JSNumber.gt x' t = true.
Proof.
  unfold JSNumber.le, JSNumber.gt.
  rewrite leb_spec, !ltb_spec. intros Hle Hlt.
  exact (SFltb_leb_trans _ _ _ Hlt Hle).
Qed.

(** No number exceeds itself: the comparison is strict. *)
Lemma SFltb_irrefl (a : spec_float) : SFltb a a = false.
Proof.
  unfold SFltb.
  destruct a as [s|s| |s m e]; try destruct s; try reflexivity;
    rewrite ?SFcompare_finite_pos, ?SFcompare_finite_neg;
    rewrite Z.compare_refl, Pos.compare_refl; reflexivity.
Qed.

Lemma gt_irrefl (t : float) : JSNumber.gt t t = false.
Proof. unfold JSNumber.gt. rewrite ltb_spec. apply SFltb_irrefl. Qed.

End FloatOrder.

(* ================================================================== *)
(** ** The classifier: what [transformAirQuality] computes *)

Section ClassifierFacts.
Import JSNumber Classifier.
Local Open Scope Z_scope.

Ltac split_comparisons :=
  repeat match goal with
         | |- context [JSNumber.gt ?x ?t] => destruct (JSNumber.gt x t)
         end.

(** The [if]-chains with their early returns compute the maximum of the
    three ranks, and 5 past a top breakpoint. *)
Lemma transformAirQuality_classify_spec (pm25 pm10 co2 : number) :
  transformAirQuality pm25 pm10 co2 = classify_spec pm25 pm10 co2.
Proof.
  unfold transformAirQuality, classify_spec, exceeds_top,
    rank_pm25, rank_pm10, rank_co2.
  split_comparisons; reflexivity.
Qed.

Lemma rank_pm25_bounds (x : number) : 1 <= rank_pm25 x <= 4.
Proof. unfold rank_pm25. split_comparisons; lia. Qed.

Lemma rank_pm10_bounds (x : number) : 1 <= rank_pm10 x <= 4.
Proof. unfold rank_pm10. split_comparisons; lia. Qed.

Lemma rank_co2_bounds (x : number) : 1 <= rank_co2 x <= 3.
Proof. unfold rank_co2. split_comparisons; lia. Qed.

Lemma classify_spec_bounds (pm25 pm10 co2 : number) :
  1 <= classify_spec pm25 pm10 co2 <= 5.
Proof.
  unfold classify_spec.
  pose proof (rank_pm25_bounds pm25). pose proof (rank_pm10_bounds pm10).
  pose proof (rank_co2_bounds co2).
  destruct (exceeds_top pm25 pm10 co2); lia.
Qed.

Section Monotone.
Variables x x' : number.
Hypothesis Hle : le x x' = true.

(** Against one threshold: what [x] passes, [x'] passes. *)
Ltac against t :=
  let H := fresh "H" in
  pose proof (gt_le_trans t x x' Hle) as H;
  destruct (JSNumber.gt x t), (JSNumber.gt x' t);
  try (specialize (H eq_refl); discriminate H); clear H.

Lemma rank_pm25_mono : rank_pm25 x <= rank_pm25 x'.
Proof.
  unfold rank_pm25.
  against 55.4%float; against 35.4%float; against 12%float; lia.
Qed.

Lemma rank_pm10_mono : rank_pm10 x <= rank_pm10 x'.
Proof.
  unfold rank_pm10.
  against 254%float; against 154%float; against 54%float; lia.
Qed.

Lemma rank_co2_mono : rank_co2 x <= rank_co2 x'.
Proof.
  unfold rank_co2.
  against 1000%float; against 500%float; lia.
Qed.

Lemma classify_spec_mono_pm25 (y z : number) :
  classify_spec x y z <= classify_spec x' y z.
Proof.
  pose proof rank_pm25_mono.
  pose proof (classify_spec_bounds x' y z) as Hb. revert Hb.
  pose proof (rank_pm25_bounds x). pose proof (rank_pm10_bounds y).
  pose proof (rank_co2_bounds z).
  unfold classify_spec, exceeds_top.
  against 100%float; cbn [orb];
    destruct (y >? 354)%float, (z >? 2000)%float; cbn [orb]; lia.
Qed.

Lemma classify_spec_mono_pm10 (y z : number) :
  classify_spec y x z <= classify_spec y x' z.
Proof.
  pose proof rank_pm10_mono.
  pose proof (classify_spec_bounds y x' z) as Hb. revert Hb.
  pose proof (rank_pm25_bounds y). pose proof (rank_pm10_bounds x).
  pose proof (rank_co2_bounds z).
  unfold classify_spec, exceeds_top.
  against 354%float; destruct (y >? 100)%float, (z >? 2000)%float;
    cbn [orb]; lia.
Qed.

Lemma classify_spec_mono_co2 (y z : number) :
  classify_spec y z x <= classify_spec y z x'.
Proof.
  pose proof rank_co2_mono.
  pose proof (classify_spec_bounds y z x') as Hb. revert Hb.
  pose proof (rank_pm25_bounds y). pose proof (rank_pm10_bounds z).
  pose proof (rank_co2_bounds x).
  unfold classify_spec, exceeds_top.
  against 2000%float; destruct (y >? 100)%float, (z >? 354)%float;
    cbn [orb]; lia.
Qed.

End Monotone.

(** C1. For every three inputs (the non-negative ones among them),
    [transformAirQuality] is the maximum of the three per-scale ranks of the
    breakpoint tables, all comparisons strict and CO2 without a rank 4,
    unless an input exceeds its top breakpoint (100, 354, 2000), which makes
    the result 5 whatever the others are; so (101,0,0), (0,355,0) and
    (0,0,2001) give 5 and (56,160,600) gives 4. *)
Theorem transformAirQuality_max_of_ranks :
  (forall pm25 pm10 co2 : number,
      transformAirQuality pm25 pm10 co2
      = if ((pm25 >? 100) || (pm10 >? 354) || (co2 >? 2000))%float then 5
        else Z.max (rank_pm25 pm25) (Z.max (rank_pm10 pm10) (rank_co2 co2)))
  /\ transformAirQuality 101 0 0 = 5
  /\ transformAirQuality 0 355 0 = 5
  /\ transformAirQuality 0 0 2001 = 5
  /\ transformAirQuality 56 160 600 = 4
  /\ (rank_pm25 56, rank_pm10 160, rank_co2 600) = (4, 3, 2).
Proof.
  split; [ exact transformAirQuality_classify_spec | ].
  repeat match goal with |- _ /\ _ => split end; vm_compute; reflexivity.
Qed.

(** C2, as the code has it. (13,0,0) gives 2 and (0,0,1500) gives 3, and
    (0,0,999) gives 2, since 999 ppm is past the 500 breakpoint; an input
    equal to a breakpoint stays in the rank below it, the comparisons being
    strict: 1000 ppm of CO2 gives 2, not 3, and likewise at each of the
    other breakpoints. *)
Theorem transformAirQuality_boundaries :
  transformAirQuality 13 0 0 = 2
  /\ transformAirQuality 0 0 1500 = 3
  /\ transformAirQuality 0 0 999 = 2
  /\ transformAirQuality 0 0 1000 = 2
  /\ (transformAirQuality 12 0 0, transformAirQuality 35.4 0 0,
      transformAirQuality 55.4 0 0, transformAirQuality 100 0 0) = (1, 2, 3, 4)
  /\ (transformAirQuality 0 54 0, transformAirQuality 0 154 0,
      transformAirQuality 0 254 0, transformAirQuality 0 354 0) = (1, 2, 3, 4)
  /\ (transformAirQuality 0 0 500, transformAirQuality 0 0 1000,
      transformAirQuality 0 0 2000) = (1, 2, 3)
  /\ (forall t : number, (t >? t)%float = false).
Proof.
  repeat match goal with |- _ /\ _ => split end;
    try (vm_compute; reflexivity).
  exact gt_irrefl.
Qed.

(** C2, as the specification has it, fails: 999 ppm of CO2, with no
    particulate matter, is rank 2 and not rank 1. *)
Lemma transformAirQuality_999_is_not_1 :
  transformAirQuality 0 0 999 = 2 /\ transformAirQuality 0 0 999 <> 1.
Proof. split; [ vm_compute; reflexivity | vm_compute; discriminate ]. Qed.

(** C8. [transformAirQuality] is a function of its three arguments alone,
    defined on every input, and its value is one of 1, 2, 3, 4, 5. *)
Theorem transformAirQuality_total_in_range (pm25 pm10 co2 : number) :
  exists! rank : Z,
    transformAirQuality pm25 pm10 co2 = rank /\ In rank [1; 2; 3; 4; 5].
Proof.
  exists (transformAirQuality pm25 pm10 co2). split.
  - split; [ reflexivity | ].
    rewrite transformAirQuality_classify_spec.
    pose proof (classify_spec_bounds pm25 pm10 co2).
    cbn [In]. lia.
  - intros r [Hr _]. exact Hr.
Qed.

(** C9. Raising one of the three inputs, the other two being any fixed
    values, never lowers the rank. *)
Theorem transformAirQuality_monotone (x x' y z : number) :
  le x x' = true ->
  transformAirQuality x y z <= transformAirQuality x' y z
  /\ transformAirQuality y x z <= transformAirQuality y x' z
  /\ transformAirQuality y z x <= transformAirQuality y z x'.
Proof.
  intros Hle. rewrite !transformAirQuality_classify_spec.
  split; [ | split ].
  - now apply classify_spec_mono_pm25.
  - now apply classify_spec_mono_pm10.
  - now apply classify_spec_mono_co2.
Qed.

Lemma transformAirQuality_monotone_witness :
  le 30 60 = true
  /\ (transformAirQuality 30 10 700 <= transformAirQuality 60 10 700
      /\ transformAirQuality 10 30 700 <= transformAirQuality 10 60 700
      /\ transformAirQuality 10 700 30 <= transformAirQuality 10 700 60).
Proof.
  split; [ reflexivity | apply (transformAirQuality_monotone 30%float 60%float 10%float 700%float); reflexivity ].
Defined.

End ClassifierFacts.

(* ================================================================== *)
(** ** The services: reading back what was written *)

Section ServiceFacts.
Import Accessory.

Lemma Characteristic_eqb_refl (c : Characteristic) : Characteristic_eqb c c = true.
Proof. destruct c; reflexivity. Qed.

Lemma Characteristic_eqb_eq (c c' : Characteristic) :
  Characteristic_eqb c c' = true -> c = c'.
Proof. destruct c, c'; cbn; congruence. Qed.

Lemma value_updateValue_same (c : Characteristic) (v : CharacteristicValue) (svc : Service) :
  value c (updateValue c v svc) = Some v.
Proof.
  induction svc as [| [c' v'] rest IH]; cbn.
  - now rewrite Characteristic_eqb_refl.
  - destruct (Characteristic_eqb c c') eqn:E; cbn; rewrite E; [ reflexivity | exact IH ].
Qed.

Lemma value_updateValue_other (c c' : Characteristic) (v : CharacteristicValue) (svc : Service) :
  Characteristic_eqb c c' = false ->
  value c (updateValue c' v svc) = value c svc.
Proof.
  intros Hne. induction svc as [| [d v'] rest IH]; cbn.
  - now rewrite Hne.
  - destruct (Characteristic_eqb c' d) eqn:E; cbn.
    + apply Characteristic_eqb_eq in E. subst d. now rewrite Hne.
    + now rewrite IH.
Qed.

End ServiceFacts.

(* ================================================================== *)
(** ** Polling *)

Section PollFacts.
Import JSNumber Accessory.
Local Open Scope string_scope.

Local Arguments strict_neq : simpl never.

Lemma with_isConnected_same (a : AirQualitySensor) :
  with_isConnected (isConnected a) a = a.
Proof. destruct a; reflexivity. Qed.

Lemma strict_neq_false (x field : option string) :
  strict_neq x field = false <-> field = x.
Proof.
  unfold strict_neq. destruct x as [s|], field as [s'|]; split; try discriminate;
    try reflexivity.
  - intros H. apply Bool.negb_false_iff, String.eqb_eq in H. now subst.
  - intros [= ->]. now rewrite String.eqb_refl.
Qed.

(** A failed fetch: the [catch] runs, and nothing but the flag, the log and
    the list of requests has changed. *)
Lemma pollAirGradient_rejected (e : FetchError) (w : World) :
  pollAirGradient (Rejected e) w
  = (Normal tt,
     {| this := with_isConnected false (this w);
        log := log w ++ [{| level := DEBUG; message := "Polling data from AirGradient";
                            parameters := [] |}];
        requests := requests w ++ [show_url (deviceUrl (this w)) ++ "/measures/current"];
        browserListening := browserListening w;
        timeoutPending := timeoutPending w;
        intervals := intervals w |}).
Proof. reflexivity. Qed.

(** A fetch that brings a reading of a device still booting. *)
Lemma pollAirGradient_booting (data : AirGradientData.t) (w : World) :
  strict_eq (AirGradientData.boot data) 0 = true ->
  pollAirGradient (Resolved data) w
  = (Normal tt,
     {| this := with_isConnected true (this w);
        log := ((log w ++ [{| level := DEBUG; message := "Polling data from AirGradient";
                              parameters := [] |}])
                  ++ [{| level := DEBUG; message := "Updating with new data: ";
                         parameters := [Json data] |}])
                 ++ [{| level := DEBUG; message := "Device still booting...";
                        parameters := [] |}];
        requests := requests w ++ [show_url (deviceUrl (this w)) ++ "/measures/current"];
        browserListening := browserListening w;
        timeoutPending := timeoutPending w;
        intervals := intervals w |}).
Proof.
  intros Hboot.
  unfold strict_eq in Hboot.
  unfold pollAirGradient, try_catch, bind, updateCharacteristics.
  cbn. unfold bind. cbn. rewrite Hboot. reflexivity.
Qed.

Ltac run_poll :=
  unfold pollAirGradient, try_catch, bind, updateCharacteristics, strict_eq_number,
    strict_eq;
  cbn; unfold bind; cbn.

(** A fetch that brings a reading of a running device: the five values are
    written, the firmware version is recorded and the flag is set. *)
Lemma pollAirGradient_accepted (data : AirGradientData.t) (w : World) :
  strict_eq (AirGradientData.boot data) 0 = false ->
  let w' := snd (pollAirGradient (Resolved data) w) in
  fst (pollAirGradient (Resolved data) w) = Normal tt
  /\ isConnected (this w') = true
  /\ firmwareVersion (this w') = Some (AirGradientData.firmwareVersion data)
  /\ stored AirQuality (this w')
     = Some (IntValue (Classifier.transformAirQuality (AirGradientData.pm02 data)
                         (AirGradientData.pm10 data) (AirGradientData.rco2 data)))
  /\ stored PM2_5Density (this w') = Some (NumberValue (AirGradientData.pm02 data))
  /\ stored PM10Density (this w') = Some (NumberValue (AirGradientData.pm10 data))
  /\ stored CarbonDioxideLevel (this w') = Some (NumberValue (AirGradientData.rco2 data))
  /\ stored CurrentTemperature (this w') = Some (NumberValue (AirGradientData.atmp data)).
Proof.
  intros Hboot. unfold strict_eq in Hboot.
  run_poll. rewrite Hboot. cbn.
  destruct (strict_neq (Some (AirGradientData.firmwareVersion data))
              (firmwareVersion (this w))) eqn:Hfw; cbn.
  - repeat match goal with |- _ /\ _ => split end; try reflexivity;
      repeat first [ apply value_updateValue_same
                   | rewrite value_updateValue_other by reflexivity ].
  - repeat match goal with |- _ /\ _ => split end; try reflexivity;
      repeat first [ apply value_updateValue_same
                   | rewrite value_updateValue_other by reflexivity ].
    now apply strict_neq_false.
Qed.

(** Whatever the fetch brings, a poll returns; it writes debug entries only
    and leaves the address, the configuration, the listener and the timers
    alone. *)
Lemma pollAirGradient_frame (response : AxiosOutcome) (w : World) :
  let w' := snd (pollAirGradient response w) in
  fst (pollAirGradient response w) = Normal tt
  /\ deviceUrl (this w') = deviceUrl (this w)
  /\ config (this w') = config (this w)
  /\ browserListening w' = browserListening w
  /\ timeoutPending w' = timeoutPending w
  /\ intervals w' = intervals w
  /\ exists l, log w' = (log w ++ l)%list /\ only_debug l.
Proof.
  destruct response as [e | data].
  - rewrite pollAirGradient_rejected. cbn.
    repeat match goal with |- _ /\ _ => split end; try reflexivity.
    eexists. split; [ reflexivity | repeat constructor ].
  - destruct data as [data | body]; run_poll.
    + destruct (PrimFloat.eqb (AirGradientData.boot data) 0); cbn;
        [ | destruct (strict_neq (Some (AirGradientData.firmwareVersion data))
                        (firmwareVersion (this w))); cbn ];
        (repeat match goal with |- _ /\ _ => split end; try reflexivity);
        rewrite <- !app_assoc; eexists; (split; [ reflexivity | repeat constructor ]).
    + destruct (strict_neq None (firmwareVersion (this w))); cbn;
        (repeat match goal with |- _ /\ _ => split end; try reflexivity);
        rewrite <- !app_assoc; eexists; (split; [ reflexivity | repeat constructor ]).
Qed.

End PollFacts.

(* ================================================================== *)
(** ** The accessors and the connectivity flag *)

Section AccessorFacts.
Import JSNumber Accessory.

Lemma stored_with_isConnected (b : bool) (c : Characteristic) (a : AirQualitySensor) :
  stored c (with_isConnected b a) = stored c a.
Proof. destruct c; reflexivity. Qed.

(** The five registered handlers follow one pattern. *)
Lemma handlers_guarded (w : World) :
  Forall (fun ch : Characteristic * Handler =>
            snd ch w
            = (if isConnected (this w)
               then Normal (stored (fst ch) (this w))
               else Throw (HapStatusError SERVICE_COMMUNICATION_FAILURE), w))
         onGetHandlers.
Proof.
  unfold onGetHandlers.
  repeat constructor; cbn [fst snd];
    unfold handleAirQualityGet, handleCarbonDioxideLevelGet, handlePM25Get,
      handlePM10Get, handleTemperatureGet, bind, get_this, ret, throw;
    destruct (isConnected (this w)); reflexivity.
Qed.

Lemma onGet_in_guarded (table : list (Characteristic * Handler)) (w : World)
  (c : Characteristic) (h : Handler) :
  Forall (fun ch : Characteristic * Handler =>
            snd ch w
            = (if isConnected (this w)
               then Normal (stored (fst ch) (this w))
               else Throw (HapStatusError SERVICE_COMMUNICATION_FAILURE), w))
         table ->
  onGet_in table c = Some h ->
  h w = (if isConnected (this w)
         then Normal (stored c (this w))
         else Throw (HapStatusError SERVICE_COMMUNICATION_FAILURE), w).
Proof.
  induction 1 as [| [c' h'] rest Hhd _ IH]; cbn; [ discriminate | ].
  destruct (Characteristic_eqb c c') eqn:E.
  - apply Characteristic_eqb_eq in E. subst c'. intros [= <-]. exact Hhd.
  - exact IH.
Qed.

Lemma onGet_guarded (w : World) (c : Characteristic) (h : Handler) :
  onGet c = Some h ->
  h w = (if isConnected (this w)
         then Normal (stored c (this w))
         else Throw (HapStatusError SERVICE_COMMUNICATION_FAILURE), w).
Proof. apply onGet_in_guarded, handlers_guarded. Qed.

(** C4. Each of the five accessors (rank, CO2, PM2.5, PM10, temperature)
    returns the value stored in its characteristic when the accessory is
    connected, and throws the communication failure, returning nothing,
    when it is not; neither changes the accessory. *)
Theorem accessors_return_stored_or_fail (w : World) :
  map fst onGetHandlers
  = [AirQuality; CarbonDioxideLevel; PM2_5Density; PM10Density; CurrentTemperature]
  /\ Forall (fun ch : Characteristic * Handler =>
               snd ch w
               = (if isConnected (this w)
                  then Normal (stored (fst ch) (this w))
                  else Throw (HapStatusError SERVICE_COMMUNICATION_FAILURE), w))
            onGetHandlers.
Proof. split; [ reflexivity | apply handlers_guarded ]. Qed.

(** C3, as the code has it. A successful fetch of a reading with
    [boot == 0] leaves the stored measurements and rank, the firmware
    version and the address as they were, and sets the connected flag; it
    changes nothing at all only when the accessory was connected already. *)
Theorem booting_reading_only_connects (data : AirGradientData.t) (w : World) :
  strict_eq (AirGradientData.boot data) 0 = true ->
  let w' := exec (pollAirGradient (Resolved data)) w in
  this w' = with_isConnected true (this w)
  /\ (forall c, stored c (this w') = stored c (this w))
  /\ firmwareVersion (this w') = firmwareVersion (this w)
  /\ deviceUrl (this w') = deviceUrl (this w)
  /\ (isConnected (this w) = true -> this w' = this w).
Proof.
  intros Hboot w'. subst w'. unfold exec.
  rewrite (pollAirGradient_booting data w Hboot). cbn [snd this].
  repeat match goal with |- _ /\ _ => split end; try reflexivity.
  intros Hc. rewrite <- Hc. apply with_isConnected_same.
Qed.

Lemma booting_reading_only_connects_witness :
  strict_eq (AirGradientData.boot Example.bootingReading) 0 = true
  /\ (let w' := exec (pollAirGradient (Resolved Example.bootingReading)) Example.started in
      this w' = with_isConnected true (this Example.started)
      /\ (forall c, stored c (this w') = stored c (this Example.started))
      /\ firmwareVersion (this w') = firmwareVersion (this Example.started)
      /\ deviceUrl (this w') = deviceUrl (this Example.started)
      /\ (isConnected (this Example.started) = true -> this w' = this Example.started)).
Proof.
  split;
    [ reflexivity
    | apply (booting_reading_only_connects Example.bootingReading Example.started);
      reflexivity ].
Defined.

(** C3, as the specification has it, fails: a booting reading that reaches
    an accessory which is not connected flips its connected flag. *)
Lemma booting_reading_changes_flag :
  strict_eq (AirGradientData.boot Example.bootingReading) 0 = true
  /\ isConnected (this Example.started) = false
  /\ isConnected
       (this (exec (pollAirGradient (Resolved Example.bootingReading)) Example.started))
     = true
  /\ this (exec (pollAirGradient (Resolved Example.bootingReading)) Example.started)
     <> this Example.started.
Proof.
  repeat match goal with |- _ /\ _ => split end; try (vm_compute; reflexivity).
  intros H. apply (f_equal isConnected) in H. vm_compute in H. discriminate H.
Qed.

(** C10. Every successful fetch sets the connected flag, a reading with
    [boot == 0] included; after such a reading each accessor succeeds and
    returns what was stored before it, also when the accessory was not
    connected. *)
Theorem successful_fetch_connects (data : AirGradientData.t) (w : World) :
  let w' := exec (pollAirGradient (Resolved data)) w in
  isConnected (this w') = true
  /\ (strict_eq (AirGradientData.boot data) 0 = true ->
      forall (c : Characteristic) (h : Handler),
        onGet c = Some h -> h w' = (Normal (stored c (this w)), w')).
Proof.
  intros w'. subst w'. unfold exec. split.
  - destruct (strict_eq (AirGradientData.boot data) 0) eqn:Hboot.
    + now rewrite (pollAirGradient_booting data w Hboot).
    + apply (pollAirGradient_accepted data w Hboot).
  - intros Hboot c h Hc.
    rewrite (onGet_guarded _ c h Hc).
    rewrite (pollAirGradient_booting data w Hboot). cbn [snd this isConnected with_isConnected].
    now rewrite stored_with_isConnected.
Qed.

Lemma successful_fetch_connects_witness :
  isConnected (this Example.started) = false
  /\ strict_eq (AirGradientData.boot Example.bootingReading) 0 = true
  /\ onGet PM2_5Density = Some handlePM25Get
  /\ handlePM25Get (exec (pollAirGradient (Resolved Example.bootingReading)) Example.started)
     = (Normal (stored PM2_5Density (this Example.started)),
        exec (pollAirGradient (Resolved Example.bootingReading)) Example.started).
Proof.
  split; [ reflexivity | split; [ reflexivity | split; [ reflexivity | ] ] ].
  apply (proj2 (successful_fetch_connects Example.bootingReading Example.started)
           eq_refl PM2_5Density handlePM25Get eq_refl).
Defined.

End AccessorFacts.

(* ================================================================== *)
(** ** The event loop: discovery, the timeout and the poll timers *)

Section EventLoopFacts.
Import JSNumber Accessory.

Lemma filter_level_debug (l : LogLevel) (entries : list LogEntry) :
  l <> DEBUG -> only_debug entries -> filter (is_level l) entries = [].
Proof.
  intros Hl. induction 1 as [| e rest He _ IH]; [ reflexivity | ].
  cbn. unfold is_level at 1. rewrite He.
  destruct l; [ congruence | exact IH | exact IH ].
Qed.

Lemma count_level_app_debug (l : LogLevel) (entries more : list LogEntry) :
  l <> DEBUG -> only_debug more ->
  List.length (filter (is_level l) (entries ++ more))
  = List.length (filter (is_level l) entries).
Proof.
  intros Hl Hd. rewrite filter_app, (filter_level_debug l more Hl Hd), app_nil_r.
  reflexivity.
Qed.

(** What one turn of the event loop does to the address, the timers and the
    two counts of reports. *)
Lemma dispatch_effect (e : Event) (w : World) :
  let w' := exec (dispatch e) w in
  fst (dispatch e w) = Normal tt
  /\ config (this w') = config (this w)
  /\ browserListening w' = browserListening w
  /\ intervals w'
     = (if taken w e
        then intervals w ++ [AccessoryConfig.pollDelay (config (this w))]
        else intervals w)
  /\ deviceUrl (this w')
     = match e with
       | Up service _ => if taken w e then Some (serviceUrl service) else deviceUrl (this w)
       | _ => deviceUrl (this w)
       end
  /\ resolutions w' = (if taken w e then S (resolutions w) else resolutions w)
  /\ timeoutPending w'
     = match e with
       | TimeoutFired => false
       | _ => timeoutPending w
       end
  /\ notFoundReports w'
     = match e with
       | TimeoutFired =>
           if timeoutPending w
           then match deviceUrl (this w) with
                | None => S (notFoundReports w)
                | Some _ => notFoundReports w
                end
           else notFoundReports w
       | _ => notFoundReports w
       end.
Proof.
  unfold exec, taken, resolutions, notFoundReports.
  destruct e as [service response | | response]; cbn [dispatch matches].
  - destruct (browserListening w) eqn:Hl; cbn [andb];
      [ | cbn [fst snd]; rewrite ?Hl; repeat split; reflexivity ].
    unfold onUp, bind, get_this. cbn [fst snd].
    destruct (includes (BonjourService.name service) _) eqn:Hm;
      [ | cbn; rewrite ?Hl; repeat split; reflexivity ].
    cbn [modify_this log_info logWith modify_world].
    match goal with
    | |- context [pollAirGradient response ?w1] =>
        pose proof (pollAirGradient_frame response w1) as Hf;
        destruct (pollAirGradient response w1) as [c w2]
    end.
    cbn [fst snd] in Hf.
    destruct Hf as (Hc & Hurl & Hcfg & Hbl & Htp & Hiv & more & Hlog & Hdebug).
    subst c. cbn. rewrite Hurl, Hcfg, Hbl, Htp, Hiv, Hlog. cbn.
    rewrite !(count_level_app_debug _ _ more) by (congruence || assumption).
    rewrite !filter_app, !List.length_app. cbn.
    repeat match goal with |- _ /\ _ => split end; try reflexivity; try assumption; lia.
  - rewrite Bool.andb_false_r.
    destruct (timeoutPending w) eqn:Hp; [ | cbn [fst snd]; rewrite ?Hp; repeat split; reflexivity ].
    unfold onTimeout, bind, get_this. cbn.
    destruct (deviceUrl (this w)) eqn:Hu; cbn; rewrite ?Hu;
      rewrite ?filter_app, ?List.length_app; cbn;
      repeat match goal with |- _ /\ _ => split end; try reflexivity; lia.
  - rewrite Bool.andb_false_r.
    destruct (intervals w) as [| d ds] eqn:Hi;
      [ cbn; rewrite ?Hi; repeat split; reflexivity | ].
    pose proof (pollAirGradient_frame response w) as Hf.
    destruct (pollAirGradient response w) as [c w2].
    cbn [fst snd] in Hf |- *.
    destruct Hf as (Hc & Hurl & Hcfg & Hbl & Htp & Hiv & more & Hlog & Hdebug).
    subst c. rewrite Hurl, Hcfg, Hbl, Htp, Hiv, Hlog, Hi.
    rewrite !(count_level_app_debug _ _ more) by (congruence || assumption).
    repeat split; reflexivity.
Qed.

Lemma dispatch_normal (e : Event) (w : World) : fst (dispatch e w) = Normal tt.
Proof. apply (dispatch_effect e w). Qed.

Lemma run_cons (e : Event) (rest : list Event) (w : World) :
  run (e :: rest) w = run rest (exec (dispatch e) w).
Proof.
  cbn [run]. unfold bind, exec.
  pose proof (dispatch_normal e w) as Hn.
  destruct (dispatch e w) as [c w1]. cbn [fst] in Hn. subst c. reflexivity.
Qed.

(** No callback lets an exception escape: every run goes through. *)
Lemma run_normal (events : list Event) (w : World) : fst (run events w) = Normal tt.
Proof.
  revert w. induction events as [| e rest IH]; intros w; [ reflexivity | ].
  rewrite run_cons. apply IH.
Qed.

Lemma exec_run_cons (e : Event) (rest : list Event) (w : World) :
  exec (run (e :: rest)) w = exec (run rest) (exec (dispatch e) w).
Proof. unfold exec at 1 2. now rewrite run_cons. Qed.

Lemma exec_run_app (events more : list Event) (w : World) :
  exec (run (events ++ more)) w = exec (run more) (exec (run events) w).
Proof.
  revert w. induction events as [| e rest IH]; intros w; [ reflexivity | ].
  cbn [app]. rewrite !exec_run_cons. apply IH.
Qed.

(** Each advertisement for the device that reaches the listener sets the
    address and starts one more poll timer. *)
Lemma run_counts (events : list Event) (w : World) :
  browserListening w = true ->
  let w' := exec (run events) w in
  config (this w') = config (this w)
  /\ browserListening w' = true
  /\ pollLoops w' = pollLoops w + matchingAdvertisements (config (this w)) events
  /\ resolutions w' = resolutions w + matchingAdvertisements (config (this w)) events
  /\ deviceUrl (this w') = lastAdvertised (config (this w)) events (deviceUrl (this w)).
Proof.
  revert w. induction events as [| e rest IH]; intros w Hl.
  - cbn. unfold matchingAdvertisements. cbn. repeat split; (assumption || lia || reflexivity).
  - cbn zeta. rewrite exec_run_cons.
    destruct (dispatch_effect e w) as (_ & Hcfg & Hbl & Hiv & Hurl & Hres & _ & _).
    set (w1 := exec (dispatch e) w) in *.
    assert (Hl1 : browserListening w1 = true) by congruence.
    destruct (IH w1 Hl1) as (Icfg & Ibl & Iiv & Ires & Iurl).
    rewrite Icfg, Ibl, Iiv, Ires, Iurl, Hcfg, Hurl, Hres.
    unfold pollLoops. rewrite Hiv.
    unfold taken. rewrite Hl. cbn [andb].
    unfold matchingAdvertisements. cbn [filter lastAdvertised].
    destruct e as [service response | | response]; cbn [matches];
      try (repeat split; reflexivity).
    destruct (includes (BonjourService.name service) _);
      rewrite ?List.length_app; cbn [List.length];
      repeat split; try reflexivity; lia.
Qed.

(** Once the timeout has fired, nothing reports "No device found" again. *)
Lemma run_after_timeout (events : list Event) (w : World) :
  timeoutPending w = false ->
  timeoutPending (exec (run events) w) = false
  /\ notFoundReports (exec (run events) w) = notFoundReports w.
Proof.
  revert w. induction events as [| e rest IH]; intros w Hp; [ now split | ].
  rewrite exec_run_cons.
  destruct (dispatch_effect e w) as (_ & _ & _ & _ & _ & _ & Htp & Hnf).
  set (w1 := exec (dispatch e) w) in *.
  assert (Hp1 : timeoutPending w1 = false) by (destruct e; congruence).
  destruct (IH w1 Hp1) as [Itp Inf]. split; [ exact Itp | ].
  rewrite Inf, Hnf, Hp. now destruct e.
Qed.

(** While no advertisement for the device arrives, the accessory keeps
    looking: no address, no poll timer, the listener registered, and "No
    device found" reported if and only if the timeout has fired. *)
Lemma run_without_match (events : list Event) (w : World) :
  forallb (fun e => negb (matches (config (this w)) e)) events = true ->
  browserListening w = true ->
  Discovering w ->
  notFoundReports w = (if timeoutPending w then 0 else 1) ->
  let w' := exec (run events) w in
  config (this w') = config (this w)
  /\ browserListening w' = true
  /\ Discovering w'
  /\ notFoundReports w' = (if timeoutPending w' then 0 else 1).
Proof.
  revert w. induction events as [| e rest IH]; intros w Hq Hl Hd Hn.
  - cbn. repeat split; assumption || apply Hd.
  - cbn zeta. rewrite exec_run_cons.
    cbn [forallb] in Hq. apply Bool.andb_true_iff in Hq. destruct Hq as [He Hrest].
    apply Bool.negb_true_iff in He.
    destruct Hd as [Hurl0 Hiv0].
    destruct (dispatch_effect e w) as (_ & Hcfg & Hbl & Hiv & Hurl & _ & Htp & Hnf).
    set (w1 := exec (dispatch e) w) in *.
    unfold taken in Hiv, Hurl. rewrite He, Bool.andb_false_r in Hiv, Hurl.
    assert (Hurl1 : deviceUrl (this w1) = None) by (destruct e; congruence).
    assert (IHw1 := IH w1).
    rewrite Hcfg in IHw1.
    destruct IHw1 as (Icfg & Ibl & Id & In1); try assumption; try congruence.
    + split; congruence.
    + rewrite Hnf, Htp. destruct e; try assumption.
      rewrite Hurl0, Hn. now destruct (timeoutPending w).
    + repeat split; try assumption; apply Id.
Qed.

(** The accessory as its constructor leaves it. *)
Lemma new_AirQualitySensor_started (MANUFACTURER : string)
  (initial : Characteristic -> Nullable CharacteristicValue) (cfg : AccessoryConfig.t) :
  let w0 := snd (new_AirQualitySensor MANUFACTURER initial cfg) in
  fst (new_AirQualitySensor MANUFACTURER initial cfg) = Normal tt
  /\ config (this w0) = cfg
  /\ isConnected (this w0) = false
  /\ deviceUrl (this w0) = None
  /\ browserListening w0 = true
  /\ timeoutPending w0 = true
  /\ intervals w0 = []
  /\ resolutions w0 = 0
  /\ notFoundReports w0 = 0.
Proof. cbn. repeat split; reflexivity. Qed.

Lemma matchingAdvertisements_pos (cfg : AccessoryConfig.t) (events : list Event) :
  existsb (matches cfg) events = true -> 0 < matchingAdvertisements cfg events.
Proof.
  unfold matchingAdvertisements.
  induction events as [| e rest IH]; cbn; [ discriminate | ].
  destruct (matches cfg e); cbn; [ lia | exact IH ].
Qed.

Lemma lastAdvertised_found (cfg : AccessoryConfig.t) (events : list Event)
  (url : option string) :
  existsb (matches cfg) events = true \/ url <> None ->
  lastAdvertised cfg events url <> None.
Proof.
  revert url. induction events as [| e rest IH]; intros url H.
  - cbn in *. destruct H as [H | H]; [ discriminate | exact H ].
  - cbn [existsb] in H. destruct e as [service response | | response]; cbn [lastAdvertised].
    + destruct (matches cfg (Up service response)); apply IH.
      * right. discriminate.
      * exact H.
    + apply IH. exact H.
    + apply IH. exact H.
Qed.

(** C6, as the code has it. Every advertisement whose name holds the
    configured identity, the first and each later one alike, sets the
    address from that advertisement and starts one more poll loop: after a
    run of events there are as many address resolutions and as many poll
    loops as the run has matching advertisements, and the address is that
    of the last of them. Advertisements that do not match change nothing. *)
Theorem every_matching_advertisement_starts_a_poll_loop (MANUFACTURER : string)
  (initial : Characteristic -> Nullable CharacteristicValue) (cfg : AccessoryConfig.t)
  (events : list Event) :
  let w := exec (run events) (snd (new_AirQualitySensor MANUFACTURER initial cfg)) in
  pollLoops w = matchingAdvertisements cfg events
  /\ resolutions w = matchingAdvertisements cfg events
  /\ deviceUrl (this w) = lastAdvertised cfg events None.
Proof.
  destruct (new_AirQualitySensor_started MANUFACTURER initial cfg)
    as (_ & Hcfg & _ & Hurl & Hl & _ & Hiv & Hres & _).
  destruct (run_counts events _ Hl) as (_ & _ & Hp & Hr & Hu).
  cbn zeta. rewrite Hp, Hr, Hu, Hcfg, Hurl, Hres. unfold pollLoops. rewrite Hiv.
  repeat split; reflexivity.
Qed.

(** C6, as the specification has it, fails: the device advertised a second
    time is not ignored. The address is resolved a second time, to the new
    address, and a second poll loop runs beside the first. *)
Lemma second_advertisement_is_not_ignored :
  let once :=
    exec (run [Up Example.advertisement (Resolved Example.runningReading)])
      Example.started in
  let twice :=
    exec (run [Up Example.advertisement (Resolved Example.runningReading);
               Up Example.readvertisement (Resolved Example.runningReading)])
      Example.started in
  (pollLoops once, resolutions once) = (1, 1)
  /\ (pollLoops twice, resolutions twice) = (2, 2)
  /\ deviceUrl (this once) = Some "http://192.168.1.20:80"%string
  /\ deviceUrl (this twice) = Some "http://192.168.1.77:80"%string
  /\ requests twice
     = ["http://192.168.1.20:80/measures/current";
        "http://192.168.1.77:80/measures/current"]%string.
Proof. vm_compute. repeat split; reflexivity. Qed.

(** C7. When no advertisement for the device has arrived by the time the
    timeout fires, "No device found" is reported, once: the count is 1
    then and stays 1 through every later run of events, none of which
    fails. The listener stays registered and the accessory stays in
    [Discovering]; a later run of events that holds an advertisement for
    the device ends in [Connected_Polling]. *)
Theorem timeout_reports_once_and_keeps_listening (MANUFACTURER : string)
  (initial : Characteristic -> Nullable CharacteristicValue) (cfg : AccessoryConfig.t)
  (before : list Event) :
  forallb (fun e => negb (matches cfg e)) before = true ->
  let w1 :=
    exec (run (before ++ [TimeoutFired]))
      (snd (new_AirQualitySensor MANUFACTURER initial cfg)) in
  notFoundReports w1 = 1
  /\ browserListening w1 = true
  /\ Discovering w1
  /\ (forall later,
        fst (run later w1) = Normal tt /\ notFoundReports (exec (run later) w1) = 1)
  /\ (forall later,
        existsb (matches cfg) later = true -> Connected_Polling (exec (run later) w1)).
Proof.
  intros Hquiet.
  destruct (new_AirQualitySensor_started MANUFACTURER initial cfg)
    as (_ & Hcfg & _ & Hurl & Hl & Hp & Hiv & _ & Hnf).
  set (w0 := snd (new_AirQualitySensor MANUFACTURER initial cfg)) in *.
  assert (Hq : forallb (fun e => negb (matches (config (this w0)) e))
                 (before ++ [TimeoutFired]) = true).
  { rewrite Hcfg, forallb_app, Hquiet. reflexivity. }
  destruct (run_without_match (before ++ [TimeoutFired]) w0 Hq Hl)
    as (Hcfg1 & Hl1 & Hd1 & Hn1).
  { split; assumption. }
  { now rewrite Hp, Hnf. }
  cbn zeta. set (w1 := exec (run (before ++ [TimeoutFired])) w0) in *.
  assert (Hp1 : timeoutPending w1 = false).
  { unfold w1. rewrite exec_run_app, exec_run_cons. cbn [run exec ret snd].
    apply (dispatch_effect TimeoutFired). }
  rewrite Hp1 in Hn1.
  split; [ assumption | ]. split; [ assumption | ]. split; [ assumption | ]. split.
  - intros later. split; [ apply run_normal | ].
    destruct (run_after_timeout later w1 Hp1) as [_ Hsame]. congruence.
  - intros later Hmatch.
    destruct (run_counts later w1 Hl1) as (_ & _ & Hloops & _ & Hu).
    rewrite Hcfg1, Hcfg in Hloops, Hu.
    pose proof (matchingAdvertisements_pos cfg later Hmatch) as Hpos.
    split.
    + rewrite Hu. apply lastAdvertised_found. now left.
    + unfold pollLoops in Hloops. intros Hnil. rewrite Hnil in Hloops.
      cbn in Hloops. lia.
Qed.

Lemma timeout_reports_once_and_keeps_listening_witness :
  let before :=
    [Up Example.strangerAdvertisement (Resolved Example.runningReading);
     IntervalFired (Rejected TransportError)] in
  let w1 := exec (run (before ++ [TimeoutFired])) Example.started in
  forallb (fun e => negb (matches Example.exampleConfig e)) before = true
  /\ (notFoundReports w1 = 1
      /\ browserListening w1 = true
      /\ Discovering w1
      /\ (forall later,
            fst (run later w1) = Normal tt /\ notFoundReports (exec (run later) w1) = 1)
      /\ (forall later,
            existsb (matches Example.exampleConfig) later = true ->
            Connected_Polling (exec (run later) w1))).
Proof.
  split;
    [ reflexivity
    | apply (timeout_reports_once_and_keeps_listening "AirGradient" Example.hapInitial
               Example.exampleConfig
               [Up Example.strangerAdvertisement (Resolved Example.runningReading);
                IntervalFired (Rejected TransportError)]);
      reflexivity ].
Defined.

End EventLoopFacts.

(* ================================================================== *)
(** ** The classifier: which inputs give which rank *)

Section RankLevels.
Import JSNumber Classifier.
Local Open Scope Z_scope.

Lemma SFltb_leb (a b : spec_float) : SFltb a b = true -> SFleb a b = true.
Proof. unfold SFltb, SFleb. destruct (SFcompare a b) as [[ | | ] | ]; congruence. Qed.

(** Past a breakpoint is past every lower breakpoint. *)
Lemma gt_chain (t t' x : float) :
  JSNumber.gt t' t = true -> JSNumber.gt x t' = true -> JSNumber.gt x t = true.
Proof.
  unfold JSNumber.gt. rewrite !ltb_spec. intros Htt' Ht'x.
  exact (SFltb_leb_trans _ _ _ Htt' (SFltb_leb _ _ Ht'x)).
Qed.

(** Not past a breakpoint is not past any higher one. *)
Lemma not_gt_chain (t t' x : float) :
  JSNumber.gt t' t = true -> JSNumber.gt x t = false -> JSNumber.gt x t' = false.
Proof.
  intros Htt' Hxt. destruct (JSNumber.gt x t') eqn:E; [ | reflexivity ].
  rewrite (gt_chain t t' x Htt' E) in Hxt. discriminate.
Qed.

(** X1. The worst rank, 5, is returned exactly when some input is past its
    top breakpoint: PM2.5 over 100, PM10 over 354 or CO2 over 2000. *)
Theorem rank_5_exactly_past_a_top_breakpoint (pm25 pm10 co2 : number) :
  (transformAirQuality pm25 pm10 co2 =? 5)
  = ((pm25 >? 100) || (pm10 >? 354) || (co2 >? 2000))%float.
Proof.
  rewrite transformAirQuality_classify_spec. unfold classify_spec, exceeds_top.
  pose proof (rank_pm25_bounds pm25). pose proof (rank_pm10_bounds pm10).
  pose proof (rank_co2_bounds co2).
  destruct ((pm25 >? 100) || (pm10 >? 354) || (co2 >? 2000))%float; [ reflexivity | ].
  apply Z.eqb_neq. lia.
Qed.

(** X2. Rank 4 is returned exactly when no input is past its top breakpoint
    and PM2.5 is over 55.4 or PM10 is over 254: CO2, whatever its value,
    never makes a rank 4. *)
Theorem rank_4_exactly_from_particulates (pm25 pm10 co2 : number) :
  (transformAirQuality pm25 pm10 co2 =? 4)
  = (negb ((pm25 >? 100) || (pm10 >? 354) || (co2 >? 2000))
     && ((pm25 >? 55.4) || (pm10 >? 254)))%float.
Proof.
  rewrite transformAirQuality_classify_spec. unfold classify_spec, exceeds_top.
  pose proof (rank_co2_bounds co2) as Hco2.
  destruct ((pm25 >? 100) || (pm10 >? 354) || (co2 >? 2000))%float;
    [ reflexivity | ].
  cbn [negb andb]. revert Hco2. unfold rank_pm25, rank_pm10.
  destruct (pm25 >? 55.4)%float, (pm10 >? 254)%float; cbn [orb]; intros Hco2;
    destruct (pm25 >? 35.4)%float, (pm25 >? 12)%float,
             (pm10 >? 154)%float, (pm10 >? 54)%float;
    first [ apply Z.eqb_eq; lia | apply Z.eqb_neq; lia ].
Qed.

(** X3. The best rank, 1, is returned exactly when no input is past its
    lowest breakpoint: PM2.5 not over 12, PM10 not over 54, CO2 not over
    500. An input that is not a number is past no breakpoint. *)
Theorem rank_1_exactly_below_all_breakpoints (pm25 pm10 co2 : number) :
  (transformAirQuality pm25 pm10 co2 =? 1)
  = (negb (pm25 >? 12) && negb (pm10 >? 54) && negb (co2 >? 500))%float.
Proof.
  rewrite transformAirQuality_classify_spec.
  unfold classify_spec, exceeds_top, rank_pm25, rank_pm10, rank_co2.
  pose proof (not_gt_chain 12 35.4 pm25 eq_refl) as A1.
  pose proof (not_gt_chain 12 55.4 pm25 eq_refl) as A2.
  pose proof (not_gt_chain 12 100 pm25 eq_refl) as A3.
  pose proof (not_gt_chain 54 154 pm10 eq_refl) as B1.
  pose proof (not_gt_chain 54 254 pm10 eq_refl) as B2.
  pose proof (not_gt_chain 54 354 pm10 eq_refl) as B3.
  pose proof (not_gt_chain 500 1000 co2 eq_refl) as C1.
  pose proof (not_gt_chain 500 2000 co2 eq_refl) as C2.
  destruct (pm25 >? 12)%float;
    [ clear A1 A2 A3 | rewrite (A1 eq_refl), (A2 eq_refl), (A3 eq_refl) ];
    (destruct (pm10 >? 54)%float;
     [ clear B1 B2 B3 | rewrite (B1 eq_refl), (B2 eq_refl), (B3 eq_refl) ]);
    (destruct (co2 >? 500)%float;
     [ clear C1 C2 | rewrite (C1 eq_refl), (C2 eq_refl) ]);
    cbn [negb andb orb];
    repeat match goal with
           | |- context [JSNumber.gt ?x ?t] => destruct (JSNumber.gt x t)
           end;
    reflexivity.
Qed.

End RankLevels.

(* ================================================================== *)
(** ** What a poll does to the accessory, field by field *)

Section PollFields.
Import JSNumber Accessory.
Local Open Scope string_scope.

Local Arguments strict_neq : simpl never.

Ltac run_poll :=
  unfold pollAirGradient, try_catch, bind, updateCharacteristics, strict_eq_number,
    strict_eq;
  cbn; unfold bind; cbn.

Lemma AirQualitySensor_eq (a b : AirQualitySensor) :
  infoService a = infoService b ->
  airQualityService a = airQualityService b ->
  temperatureService a = temperatureService b ->
  name a = name b ->
  deviceUrl a = deviceUrl b ->
  firmwareVersion a = firmwareVersion b ->
  isConnected a = isConnected b ->
  config a = config b ->
  a = b.
Proof. destruct a, b; cbn; intros; subst; reflexivity. Qed.

(** Every field of the accessory after a response that is not the reading
    of a booting device: the reading of a running device, or a body that
    was not decoded, whose fields are all [undefined]. *)
Lemma pollAirGradient_accepted_fields (data : ResponseData) (w : World) :
  strict_eq_number (field AirGradientData.boot data) 0 = false ->
  let a := this w in
  let a' := this (exec (pollAirGradient (Resolved data)) w) in
  name a' = name a
  /\ config a' = config a
  /\ deviceUrl a' = deviceUrl a
  /\ isConnected a' = true
  /\ firmwareVersion a' = field AirGradientData.firmwareVersion data
  /\ infoService a'
     = (if strict_neq (field AirGradientData.firmwareVersion data) (firmwareVersion a)
        then updateValue Model (stringValue (field AirGradientData.fwMode data))
               (updateValue FirmwareRevision
                  (stringValue (field AirGradientData.firmwareVersion data))
                  (infoService a))
        else infoService a)
  /\ airQualityService a'
     = updateValue CarbonDioxideLevel (numberValue (field AirGradientData.rco2 data))
         (updateValue PM10Density (numberValue (field AirGradientData.pm10 data))
            (updateValue PM2_5Density (numberValue (field AirGradientData.pm02 data))
               (updateValue AirQuality
                  (IntValue
                     (Classifier.transformAirQuality
                        (to_number (field AirGradientData.pm02 data))
                        (to_number (field AirGradientData.pm10 data))
                        (to_number (field AirGradientData.rco2 data))))
                  (airQualityService a))))
  /\ temperatureService a'
     = updateValue CurrentTemperature (numberValue (field AirGradientData.atmp data))
         (temperatureService a).
Proof.
  intros Hboot. unfold exec.
  destruct data as [data | body]; cbn [field strict_eq_number] in *.
  - unfold strict_eq in Hboot. run_poll. rewrite Hboot. cbn.
    destruct (strict_neq (Some (AirGradientData.firmwareVersion data))
                (firmwareVersion (this w))) eqn:Hfw;
      cbn; repeat match goal with |- _ /\ _ => split end; try reflexivity.
    now apply strict_neq_false.
  - run_poll.
    destruct (strict_neq None (firmwareVersion (this w))) eqn:Hfw;
      cbn; repeat match goal with |- _ /\ _ => split end; try reflexivity.
    now apply strict_neq_false.
Qed.

(** The only response that is held to be a booting device's is a decoded
    reading whose [boot] is 0. *)
Lemma booting_is_decoded (data : ResponseData) :
  strict_eq_number (field AirGradientData.boot data) 0 = true ->
  exists d : AirGradientData.t,
    data = Decoded d /\ strict_eq (AirGradientData.boot d) 0 = true.
Proof.
  destruct data as [d | body]; cbn; [ | discriminate ].
  intros H. now exists d.
Qed.

(** A poll, whatever it brings, sends one request to the address on
    record and leaves the flag telling whether a response came. *)
Lemma pollAirGradient_request (response : AxiosOutcome) (w : World) :
  requests (exec (pollAirGradient response) w)
  = (requests w ++ [(show_url (deviceUrl (this w)) ++ measuresPath)%string])%list
  /\ isConnected (this (exec (pollAirGradient response) w)) = resolved response.
Proof.
  destruct response as [e | data].
  - unfold exec. rewrite pollAirGradient_rejected. split; reflexivity.
  - destruct (strict_eq_number (field AirGradientData.boot data) 0) eqn:Hboot.
    + destruct (booting_is_decoded data Hboot) as (d & -> & Hd).
      unfold exec. rewrite (pollAirGradient_booting d w Hd). split; reflexivity.
    + split; [ | apply (pollAirGradient_accepted_fields data w Hboot) ].
      unfold exec. destruct data as [d | body]; cbn [field strict_eq_number] in Hboot.
      * unfold strict_eq in Hboot. run_poll. rewrite Hboot. cbn.
        destruct (strict_neq _ _); reflexivity.
      * run_poll. destruct (strict_neq _ _); reflexivity.
Qed.

(** The accessory after a poll depends on the accessory before it and on
    the response, not on the log or the timers. *)
Lemma pollAirGradient_this (response : AxiosOutcome) (w1 w2 : World) :
  this w1 = this w2 ->
  this (exec (pollAirGradient response) w1) = this (exec (pollAirGradient response) w2).
Proof.
  intros Hthis. destruct response as [e | data].
  - unfold exec. rewrite !pollAirGradient_rejected. cbn. now rewrite Hthis.
  - destruct (strict_eq_number (field AirGradientData.boot data) 0) eqn:Hboot.
    + destruct (booting_is_decoded data Hboot) as (d & -> & Hd).
      unfold exec. rewrite !(pollAirGradient_booting d _ Hd). cbn. now rewrite Hthis.
    + destruct (pollAirGradient_accepted_fields data w1 Hboot)
        as (A1 & A2 & A3 & A4 & A5 & A6 & A7 & A8).
      destruct (pollAirGradient_accepted_fields data w2 Hboot)
        as (B1 & B2 & B3 & B4 & B5 & B6 & B7 & B8).
      apply AirQualitySensor_eq; rewrite ?A1, ?A2, ?A3, ?A4, ?A5, ?A6, ?A7, ?A8,
        ?B1, ?B2, ?B3, ?B4, ?B5, ?B6, ?B7, ?B8, ?Hthis; reflexivity.
Qed.


(** What one turn of the event loop does to the accessory and to the
    requests: nothing, or the poll of a tick, or the new address and the
    poll of an advertisement. *)
Lemma dispatch_this (e : Event) (w : World) :
  match e with
  | Up service response =>
      if taken w e
      then this (exec (dispatch e) w)
           = this (exec (pollAirGradient response)
                     (with_this (with_deviceUrl (Some (serviceUrl service)) (this w)) w))
           /\ requests (exec (dispatch e) w)
              = (requests w ++ [(serviceUrl service ++ measuresPath)%string])%list
      else exec (dispatch e) w = w
  | TimeoutFired =>
      this (exec (dispatch e) w) = this w
      /\ requests (exec (dispatch e) w) = requests w
  | IntervalFired response =>
      match intervals w with
      | [] => exec (dispatch e) w = w
      | _ :: _ => exec (dispatch e) w = exec (pollAirGradient response) w
      end
  end.
Proof.
  destruct e as [service response | | response]; unfold taken; cbn [matches].
  - unfold exec. cbn [dispatch].
    destruct (browserListening w) eqn:Hl; cbn [andb]; [ | reflexivity ].
    unfold onUp, bind, get_this. cbn [fst snd].
    destruct (includes (BonjourService.name service) _) eqn:Hm; [ | reflexivity ].
    cbn [modify_this log_info logWith modify_world].
    match goal with
    | |- context [pollAirGradient response ?w1] =>
        pose proof (pollAirGradient_frame response w1) as Hf;
        pose proof (pollAirGradient_request response w1) as Hr;
        pose proof (pollAirGradient_this response w1
                      (with_this (with_deviceUrl (Some (serviceUrl service)) (this w)) w)
                      eq_refl) as Ht;
        unfold exec in Hr, Ht;
        destruct (pollAirGradient response w1) as [c w2]
    end.
    cbn [fst snd] in Hf, Hr, Ht. destruct Hf as (Hc & _). subst c. cbn.
    split; [ exact Ht | exact (proj1 Hr) ].
  - unfold exec. cbn [dispatch].
    destruct (timeoutPending w); [ | split; reflexivity ].
    unfold onTimeout, bind, get_this. cbn.
    destruct (deviceUrl (this w)); split; reflexivity.
  - unfold exec. cbn [dispatch]. destruct (intervals w); reflexivity.
Qed.


End PollFields.

(* ================================================================== *)
(** ** Readings: what is written, and what stays true through every run *)

Section ReadingFacts.
Import JSNumber Accessory.
Local Open Scope string_scope.

Lemma updateValue_fixed (c : Characteristic) (v : CharacteristicValue) (svc : Service) :
  value c svc = Some v -> updateValue c v svc = svc.
Proof.
  induction svc as [| [c' v'] rest IH]; cbn; [ discriminate | ].
  destruct (Characteristic_eqb c c'); intros H.
  - now rewrite H.
  - now rewrite IH.
Qed.

(** X5. A reading of a running device makes its firmware version the one
    on record. When that version was on record already, the reading leaves
    the information service untouched, so a changed [fwMode] alone does
    not reach [Model]; in every case [Manufacturer] and [SerialNumber] keep
    their values. *)
Theorem info_written_only_on_new_firmware (data : AirGradientData.t) (w : World) :
  strict_eq (AirGradientData.boot data) 0 = false ->
  let a := this w in
  let a' := this (exec (pollAirGradient (Resolved data)) w) in
  firmwareVersion a' = Some (AirGradientData.firmwareVersion data)
  /\ (firmwareVersion a = Some (AirGradientData.firmwareVersion data) ->
      infoService a' = infoService a)
  /\ stored Manufacturer a' = stored Manufacturer a
  /\ stored SerialNumber a' = stored SerialNumber a.
Proof.
  intros Hboot a a'.
  destruct (pollAirGradient_accepted_fields data w Hboot)
    as (_ & _ & _ & _ & Hfw & Hinfo & _ & _).
  fold a a' in Hfw, Hinfo. cbn [field] in Hfw, Hinfo.
  split; [ exact Hfw | ]. split.
  - intros Hsame. apply strict_neq_false in Hsame. now rewrite Hsame in Hinfo.
  - unfold stored. rewrite Hinfo.
    destruct (strict_neq _ _);
      rewrite ?value_updateValue_other by reflexivity; split; reflexivity.
Qed.

Lemma info_written_only_on_new_firmware_witness :
  let w1 := exec (pollAirGradient (Resolved Example.runningReading)) Example.started in
  let w2 := exec (pollAirGradient (Resolved Example.runningReading)) w1 in
  strict_eq (AirGradientData.boot Example.runningReading) 0 = false
  /\ firmwareVersion (this w1) = Some "3.1.1"
  /\ (firmwareVersion (this w2) = Some "3.1.1"
      /\ (firmwareVersion (this w1) = Some "3.1.1" ->
          infoService (this w2) = infoService (this w1))
      /\ stored Manufacturer (this w2) = stored Manufacturer (this w1)
      /\ stored SerialNumber (this w2) = stored SerialNumber (this w1)).
Proof.
  cbn zeta. split; [ reflexivity | split; [ reflexivity | ] ].
  apply (info_written_only_on_new_firmware Example.runningReading
           (exec (pollAirGradient (Resolved Example.runningReading)) Example.started)).
  reflexivity.
Defined.

(** X6. Polling twice with the same outcome leaves the accessory as polling
    once does: a response that repeats changes no field and no stored
    value. *)
Theorem repeated_poll_changes_nothing (response : AxiosOutcome) (w : World) :
  let w1 := exec (pollAirGradient response) w in
  this (exec (pollAirGradient response) w1) = this w1.
Proof.
  cbn zeta. destruct response as [e | data].
  - unfold exec. rewrite !pollAirGradient_rejected. reflexivity.
  - destruct (strict_eq_number (field AirGradientData.boot data) 0) eqn:Hboot.
    + destruct (booting_is_decoded data Hboot) as (d & -> & Hd).
      unfold exec. rewrite !(pollAirGradient_booting d _ Hd). reflexivity.
    + set (w1 := exec (pollAirGradient (Resolved data)) w).
      destruct (pollAirGradient_accepted_fields data w Hboot)
        as (_ & _ & _ & A4 & A5 & _ & A7 & A8).
      fold w1 in A4, A5, A7, A8.
      destruct (pollAirGradient_accepted_fields data w1 Hboot)
        as (B1 & B2 & B3 & B4 & B5 & B6 & B7 & B8).
      apply AirQualitySensor_eq; try assumption; try congruence.
      * rewrite B6.
        assert (E : strict_neq (field AirGradientData.firmwareVersion data)
                      (firmwareVersion (this w1)) = false)
          by now apply strict_neq_false.
        now rewrite E.
      * rewrite B7.
        rewrite (updateValue_fixed AirQuality);
          [ rewrite (updateValue_fixed PM2_5Density);
            [ rewrite (updateValue_fixed PM10Density);
              [ apply (updateValue_fixed CarbonDioxideLevel) | ] | ] | ];
          rewrite A7;
          repeat first [ apply value_updateValue_same
                       | rewrite value_updateValue_other by reflexivity ].
      * rewrite B8. apply updateValue_fixed. rewrite A8. apply value_updateValue_same.
Qed.

End ReadingFacts.

(* ================================================================== *)
(** ** Fetches that fail, and bodies that are not readings *)

Section FailedFetches.
Import JSNumber Accessory.
Local Open Scope string_scope.



End FailedFetches.

(* ================================================================== *)
(** ** What every run of events keeps *)

Section RunInvariants.
Import JSNumber Accessory.
Local Open Scope string_scope.

Variable MANUFACTURER : string.
Variable initial : Characteristic -> Nullable CharacteristicValue.
Variable cfg : AccessoryConfig.t.

Let w0 : World := snd (new_AirQualitySensor MANUFACTURER initial cfg).


End RunInvariants.

(* ================================================================== *)
(** ** Requests, the connected flag and the timers along a run *)

Section RunRequests.
Import JSNumber Accessory.
Local Open Scope string_scope.

(** What one turn of the event loop asks of the network and makes of the
    flag. *)
Lemma dispatch_poll (e : Event) (w : World) :
  let w' := exec (dispatch e) w in
  match e with
  | Up service response =>
      if taken w e
      then requests w' = (requests w ++ [(serviceUrl service ++ measuresPath)%string])%list
           /\ isConnected (this w') = resolved response
      else w' = w
  | TimeoutFired =>
      requests w' = requests w /\ isConnected (this w') = isConnected (this w)
  | IntervalFired response =>
      if timerRuns w
      then requests w'
           = (requests w ++ [(show_url (deviceUrl (this w)) ++ measuresPath)%string])%list
           /\ isConnected (this w') = resolved response
      else w' = w
  end.
Proof.
  pose proof (dispatch_this e w) as Hd. cbn zeta. unfold timerRuns.
  destruct e as [service response | | response].
  - destruct (taken w (Up service response)); [ | exact Hd ].
    destruct Hd as [Ht Hr]. split; [ exact Hr | ].
    rewrite Ht. apply pollAirGradient_request.
  - destruct Hd as [Ht Hr]. now rewrite Ht, Hr.
  - destruct (intervals w); [ exact Hd | ].
    rewrite Hd. apply pollAirGradient_request.
Qed.

Lemma timerRuns_after (e : Event) (w : World) :
  timerRuns (exec (dispatch e) w) = timerRuns w || taken w e.
Proof.
  unfold timerRuns.
  destruct (dispatch_effect e w) as (_ & _ & _ & Hiv & _). rewrite Hiv.
  destruct (taken w e), (intervals w); reflexivity.
Qed.

(** The flag and the number of requests after a run, from the polls the
    run starts. *)
Lemma run_polls (events : list Event) (w : World) :
  browserListening w = true ->
  let w' := exec (run events) w in
  let polls := pollsOf (config (this w)) (timerRuns w) events in
  isConnected (this w') = lastSucceeded polls (isConnected (this w))
  /\ List.length (requests w') = List.length (requests w) + List.length polls.
Proof.
  revert w. induction events as [| e rest IH]; intros w Hl.
  - cbn. split; [ reflexivity | lia ].
  - cbn zeta. rewrite exec_run_cons.
    destruct (dispatch_effect e w) as (_ & Hcfg & Hbl & _).
    pose proof (timerRuns_after e w) as Htr.
    pose proof (dispatch_poll e w) as Hp. cbn zeta in Hp.
    set (w1 := exec (dispatch e) w) in *.
    assert (Hl1 : browserListening w1 = true) by congruence.
    destruct (IH w1 Hl1) as [Ic Ir]. rewrite Ic, Ir, Hcfg, Htr. clear IH Ic Ir.
    unfold taken in *. rewrite Hl in *. cbn [andb] in *.
    destruct e as [service response | | response]; cbn [pollsOf matches] in *.
    + destruct (includes (BonjourService.name service) _).
      * destruct Hp as [Hr Hc]. rewrite Hr, Hc, Bool.orb_true_r, List.length_app.
        cbn. split; [ reflexivity | lia ].
      * rewrite Hp, Bool.orb_false_r. split; reflexivity.
    + destruct Hp as [Hr Hc]. rewrite Hr, Hc, Bool.orb_false_r. split; reflexivity.
    + rewrite Bool.orb_false_r. destruct (timerRuns w).
      * destruct Hp as [Hr Hc]. rewrite Hr, Hc, List.length_app.
        cbn. split; [ reflexivity | lia ].
      * rewrite Hp. split; reflexivity.
Qed.

(** Every request of a run goes to an address that is [ok], when the
    address on record and the addresses the run advertises are. *)
Lemma run_request_targets (ok : string -> Prop) (events : list Event) (w : World) :
  browserListening w = true ->
  (forall u, In u (advertised (config (this w)) events) -> ok u) ->
  (forall u, deviceUrl (this w) = Some u -> ok u) ->
  (deviceUrl (this w) = None -> intervals w = []) ->
  Forall (fun r => exists u, ok u /\ r = u ++ measuresPath) (requests w) ->
  Forall (fun r => exists u, ok u /\ r = u ++ measuresPath) (requests (exec (run events) w)).
Proof.
  revert w. induction events as [| e rest IH]; intros w Hl Hadv Hurl Hnone Hreq;
    [ exact Hreq | ].
  rewrite exec_run_cons.
  destruct (dispatch_effect e w) as (_ & Hcfg & Hbl & Hiv & Hu & _).
  pose proof (dispatch_poll e w) as Hp. cbn zeta in Hp. unfold timerRuns in Hp.
  set (w1 := exec (dispatch e) w) in *.
  unfold taken in *. rewrite Hl in *. cbn [andb] in *.
  apply IH; clear IH.
  - congruence.
  - rewrite Hcfg. intros u Hin. apply Hadv.
    destruct e as [service response | | response]; cbn [advertised]; try exact Hin.
    destruct (matches (config (this w)) (Up service response)); [ now right | exact Hin ].
  - intros u Hu1. rewrite Hu in Hu1.
    destruct e as [service response | | response]; try (now apply Hurl).
    cbn [matches] in *.
    destruct (includes (BonjourService.name service) _) eqn:Hm; [ | now apply Hurl ].
    injection Hu1 as <-. apply Hadv. cbn [advertised matches]. rewrite Hm. now left.
  - intros Hu1. rewrite Hu in Hu1. rewrite Hiv.
    destruct e as [service response | | response]; cbn [matches] in *;
      try (now apply Hnone).
    destruct (includes (BonjourService.name service) _); [ discriminate | now apply Hnone ].
  - destruct e as [service response | | response]; cbn [matches] in *.
    + destruct (includes (BonjourService.name service) _) eqn:Hm;
        [ | now rewrite Hp ].
      destruct Hp as [Hr _]. rewrite Hr. apply Forall_app. split; [ exact Hreq | ].
      constructor; [ | constructor ].
      exists (serviceUrl service). split; [ | reflexivity ].
      apply Hadv. cbn [advertised matches]. rewrite Hm. now left.
    + destruct Hp as [Hr _]. now rewrite Hr.
    + destruct (intervals w) as [| d ds] eqn:Hi; [ now rewrite Hp | ].
      destruct Hp as [Hr _]. rewrite Hr. apply Forall_app. split; [ exact Hreq | ].
      constructor; [ | constructor ].
      destruct (deviceUrl (this w)) as [u |] eqn:Hdu.
      * exists u. split; [ now apply Hurl | reflexivity ].
      * specialize (Hnone eq_refl). discriminate.
Qed.

Lemma run_timer_delays (events : list Event) (w : World) :
  browserListening w = true ->
  intervals (exec (run events) w)
  = (intervals w
     ++ repeat (AccessoryConfig.pollDelay (config (this w)))
          (matchingAdvertisements (config (this w)) events))%list.
Proof.
  revert w. induction events as [| e rest IH]; intros w Hl.
  - cbn. now rewrite app_nil_r.
  - rewrite exec_run_cons.
    destruct (dispatch_effect e w) as (_ & Hcfg & Hbl & Hiv & _).
    set (w1 := exec (dispatch e) w) in *.
    rewrite IH by congruence. rewrite Hcfg, Hiv.
    unfold taken, matchingAdvertisements. rewrite Hl. cbn [andb filter].
    destruct (matches (config (this w)) e); [ | reflexivity ].
    rewrite <- app_assoc. reflexivity.
Qed.

Lemma pollsOf_none (cfg : AccessoryConfig.t) (events : list Event) :
  forallb (fun e => negb (matches cfg e)) events = true ->
  pollsOf cfg false events = [].
Proof.
  induction events as [| e rest IH]; [ reflexivity | ].
  cbn [forallb]. intros H. apply Bool.andb_true_iff in H. destruct H as [He Hrest].
  apply Bool.negb_true_iff in He.
  destruct e as [service response | | response]; cbn [pollsOf]; rewrite ?He; now apply IH.
Qed.

(** Without a timeout in it, a run reports no "No device found". *)
Lemma run_no_timeout (events : list Event) (w : World) :
  forallb (fun e => negb (isTimeoutFired e)) events = true ->
  notFoundReports (exec (run events) w) = notFoundReports w.
Proof.
  revert w. induction events as [| e rest IH]; intros w H; [ reflexivity | ].
  cbn [forallb] in H. apply Bool.andb_true_iff in H. destruct H as [He Hrest].
  rewrite exec_run_cons, (IH _ Hrest).
  destruct (dispatch_effect e w) as (_ & _ & _ & _ & _ & _ & _ & Hnf).
  rewrite Hnf. destruct e; [ reflexivity | discriminate | reflexivity ].
Qed.

(** Once an address is on record, no run reports "No device found". *)
Lemma run_found_silent (events : list Event) (w : World) :
  deviceUrl (this w) <> None ->
  notFoundReports (exec (run events) w) = notFoundReports w.
Proof.
  revert w. induction events as [| e rest IH]; intros w Hu; [ reflexivity | ].
  rewrite exec_run_cons.
  destruct (dispatch_effect e w) as (_ & _ & _ & _ & Hurl & _ & _ & Hnf).
  rewrite IH.
  - rewrite Hnf. destruct e; try reflexivity.
    destruct (timeoutPending w); [ | reflexivity ].
    destruct (deviceUrl (this w)); [ reflexivity | contradiction ].
  - rewrite Hurl. destruct e; try exact Hu.
    destruct (taken w _); [ discriminate | exact Hu ].
Qed.

End RunRequests.

(* ================================================================== *)
(** ** Runs from the constructor *)

Section RunsFromTheConstructor.
Import JSNumber Accessory.
Local Open Scope string_scope.

Variable MANUFACTURER : string.
Variable initial : Characteristic -> Nullable CharacteristicValue.
Variable cfg : AccessoryConfig.t.

Let w0 : World := snd (new_AirQualitySensor MANUFACTURER initial cfg).

(** X11. From the constructor on and as long as no advertisement for the
    device has arrived, whatever else happens, no request is sent, the
    accessory is not connected, and each of the five accessors throws the
    communication failure. *)
Theorem nothing_is_read_before_the_device_is_found (events : list Event) :
  forallb (fun e => negb (matches cfg e)) events = true ->
  let w := exec (run events) w0 in
  requests w = []
  /\ isConnected (this w) = false
  /\ Forall (fun ch : Characteristic * Handler =>
               snd ch w = (Throw (HapStatusError SERVICE_COMMUNICATION_FAILURE), w))
            onGetHandlers.
Proof.
  intros Hquiet w.
  destruct (run_polls events w0 eq_refl) as [Hc Hr].
  change (config (this w0)) with cfg in Hc, Hr.
  change (timerRuns w0) with false in Hc, Hr.
  rewrite (pollsOf_none cfg events Hquiet) in Hc, Hr.
  fold w in Hc, Hr. cbn in Hc, Hr.
  assert (Hreq : requests w = []) by (destruct (requests w); [ reflexivity | discriminate ]).
  split; [ exact Hreq | ]. split; [ exact Hc | ].
  pose proof (handlers_guarded w) as Hh. rewrite Hc in Hh. exact Hh.
Qed.

(** X12. Every request a run sends goes to the measures path of an
    address that an advertisement for the device gave earlier in the run;
    no poll goes out while no address is on record. *)
Theorem requests_go_to_advertised_addresses (events : list Event) :
  Forall (fun r => exists u, In u (advertised cfg events) /\ r = u ++ measuresPath)
         (requests (exec (run events) w0)).
Proof.
  apply (run_request_targets (fun u => In u (advertised cfg events))).
  - reflexivity.
  - intros u Hin. exact Hin.
  - intros u Hu. discriminate Hu.
  - reflexivity.
  - constructor.
Qed.

(** X13. Every poll timer of a run is set to the configured poll delay, one
    timer for each advertisement for the device. *)
Theorem timers_run_at_the_poll_delay (events : list Event) :
  intervals (exec (run events) w0)
  = repeat (AccessoryConfig.pollDelay cfg) (matchingAdvertisements cfg events).
Proof. apply (run_timer_delays events w0). reflexivity. Qed.

(** X14. When an advertisement for the device arrives before the timeout
    fires, "No device found" is never reported, whatever follows. *)
Theorem found_in_time_is_never_reported (before after : list Event) :
  forallb (fun e => negb (isTimeoutFired e)) before = true ->
  existsb (matches cfg) before = true ->
  notFoundReports (exec (run (before ++ after)) w0) = 0.
Proof.
  intros Hno Hmatch. rewrite exec_run_app.
  rewrite run_found_silent.
  - now rewrite run_no_timeout.
  - destruct (run_counts before w0 eq_refl) as (_ & _ & _ & _ & Hu).
    rewrite Hu. apply lastAdvertised_found. now left.
Qed.

(** X15. A run sends exactly one request for each poll it starts: one for
    each advertisement for the device and one for each tick that comes
    after the first of them; nothing else sends a request. *)
Theorem one_request_for_each_poll_started (events : list Event) :
  List.length (requests (exec (run events) w0)) = List.length (pollsOf cfg false events).
Proof. apply (run_polls events w0). reflexivity. Qed.

End RunsFromTheConstructor.

Section RunsOfTheExample.
Import JSNumber Accessory.
Local Open Scope string_scope.

Lemma nothing_is_read_before_the_device_is_found_witness :
  let events :=
    [Up Example.strangerAdvertisement (Resolved Example.runningReading);
     TimeoutFired;
     IntervalFired (Resolved Example.runningReading)] in
  let w := exec (run events) Example.started in
  forallb (fun e => negb (matches Example.exampleConfig e)) events = true
  /\ (requests w = []
      /\ isConnected (this w) = false
      /\ Forall (fun ch : Characteristic * Handler =>
                   snd ch w = (Throw (HapStatusError SERVICE_COMMUNICATION_FAILURE), w))
                onGetHandlers).
Proof.
  split;
    [ reflexivity
    | apply (nothing_is_read_before_the_device_is_found "AirGradient"
               Example.hapInitial Example.exampleConfig
               [Up Example.strangerAdvertisement (Resolved Example.runningReading);
                TimeoutFired;
                IntervalFired (Resolved Example.runningReading)]);
      reflexivity ].
Defined.

Lemma found_in_time_is_never_reported_witness :
  let before := [Up Example.advertisement (Rejected TransportError)] in
  let after := [TimeoutFired; Up Example.strangerAdvertisement (Rejected TransportError)] in
  forallb (fun e => negb (isTimeoutFired e)) before = true
  /\ existsb (matches Example.exampleConfig) before = true
  /\ notFoundReports (exec (run (before ++ after)) Example.started) = 0.
Proof.
  split; [ reflexivity | split; [ reflexivity | ] ].
  apply (found_in_time_is_never_reported "AirGradient" Example.hapInitial
           Example.exampleConfig
           [Up Example.advertisement (Rejected TransportError)]
           [TimeoutFired; Up Example.strangerAdvertisement (Rejected TransportError)]);
    reflexivity.
Defined.

End RunsOfTheExample.
